(** * Telephony metrics proxy gateway: the collection orchestrator

  A shallow embedding of [proxy-gateway/main.py] and of the session
  context manager of [proxy-gateway/models.py], followed by the
  properties of the collection cycle: error capture, per-source counts,
  the transactional write, and the process-lifetime bookkeeping.

  What lies outside the repository is an explicit environment:
  the answer of [requests.get] for a URL, the verdict of the database
  when a session is committed, and the clock read by [datetime.utcnow]. *)

From Stdlib Require Import ZArith List String Ascii Bool Lia.
From Stdlib Require Import Floats DecimalString.
Import ListNotations.
Set Warnings "-register-all".
Open Scope string_scope.
Open Scope Z_scope.

(** ** Python values, exceptions and the operations the gateway uses *)

Module Py.

(** A value produced by [response.json()].  Integers and floats are
    distinct, as in Python ([1] is an [int], [2.5] a [float]); a dict
    is the sequence of its items in insertion order. *)
Inductive pyval : Type :=
| PyNone
| PyBool (b : bool)
| PyInt (z : Z)
| PyFloat (f : float)
| PyStr (s : string)
| PyList (l : list pyval)
| PyDict (d : list (string * pyval)).

Definition pydict : Type := list (string * pyval).

(** The exception classes that occur.  Every one of them derives from
    [Exception]; [requests.RequestException] stands for itself and its
    subclasses (ConnectionError, Timeout, HTTPError, ...). *)
Inductive exc_class : Type :=
| RequestException
| KeyError
| AttributeError
| TypeError
| SQLAlchemyError.

Record pyexc : Type := mkExc { exc_type : exc_class; exc_str : string }.

Definition is_RequestException (e : pyexc) : bool :=
  match exc_type e with RequestException => true | _ => false end.

Inductive result (A : Type) : Type :=
| Ok (a : A)
| Raise (e : pyexc).
Arguments Ok {A} a.
Arguments Raise {A} e.

Definition rbind {A B} (r : result A) (k : A -> result B) : result B :=
  match r with Ok a => k a | Raise e => Raise e end.

(** [type(v).__name__] *)
Definition type_name (v : pyval) : string :=
  match v with
  | PyNone => "NoneType"
  | PyBool _ => "bool"
  | PyInt _ => "int"
  | PyFloat _ => "float"
  | PyStr _ => "str"
  | PyList _ => "list"
  | PyDict _ => "dict"
  end.

Definition no_attribute (v : pyval) (attr : string) : pyexc :=
  mkExc AttributeError
    ("'" ++ type_name v ++ "' object has no attribute '" ++ attr ++ "'").

(** Lookup of a key among the items of a dict. *)
Fixpoint lookup (d : pydict) (k : string) : option pyval :=
  match d with
  | [] => None
  | (k', v) :: d' => if String.eqb k' k then Some v else lookup d' k
  end.

(** [d[k]] on a dict: [KeyError(k)], whose [str] is the repr of the key. *)
Definition dict_getitem (d : pydict) (k : string) : result pyval :=
  match lookup d k with
  | Some v => Ok v
  | None => Raise (mkExc KeyError ("'" ++ k ++ "'"))
  end.

(** [v.get(k, default)]: only a dict has the method. *)
Definition get (v : pyval) (k : string) (default : pyval) : result pyval :=
  match v with
  | PyDict d => Ok (match lookup d k with Some x => x | None => default end)
  | _ => Raise (no_attribute v "get")
  end.

(** [v.items()]: only a dict has the method. *)
Definition items (v : pyval) : result (list (string * pyval)) :=
  match v with
  | PyDict d => Ok d
  | _ => Raise (no_attribute v "items")
  end.

(** [v[k]] for a string key [k] (messages as CPython 3.11 words them). *)
Definition getitem (v : pyval) (k : string) : result pyval :=
  match v with
  | PyDict d => dict_getitem d k
  | PyList _ =>
      Raise (mkExc TypeError "list indices must be integers or slices, not str")
  | PyStr _ =>
      Raise (mkExc TypeError "string indices must be integers, not 'str'")
  | _ =>
      Raise (mkExc TypeError ("'" ++ type_name v ++ "' object is not subscriptable"))
  end.

(** [math.isfinite] on a value: false exactly on NaN and the infinities. *)
Definition non_finite (v : pyval) : bool :=
  match v with
  | PyFloat f => negb (PrimFloat.is_finite f)
  | _ => false
  end.

Definition str_of_Z (z : Z) : string := NilZero.string_of_int (Z.to_int z).

End Py.
Export Py.

(** ** The HTTP client ([requests]) as far as the gateway uses it *)

Module Http.

Record Response : Type := mkResponse {
  status_code : Z;
  reason : string;
  url : string;
  json : result pyval        (* what [response.json()] does *)
}.

(** [Response.raise_for_status]: HTTPError, a RequestException, for a
    status in 400..599. *)
Definition raise_for_status (r : Response) : result unit :=
  if (400 <=? status_code r) && (status_code r <? 500) then
    Raise (mkExc RequestException
             (str_of_Z (status_code r) ++ " Client Error: " ++ reason r
                ++ " for url: " ++ url r))
  else if (500 <=? status_code r) && (status_code r <? 600) then
    Raise (mkExc RequestException
             (str_of_Z (status_code r) ++ " Server Error: " ++ reason r
                ++ " for url: " ++ url r))
  else Ok tt.

End Http.
Export Http.

(** ** [datetime] values and [datetime.isoformat] *)

Module Datetime.

Record datetime : Type := mkDatetime {
  year : Z; month : Z; day : Z;
  hour : Z; minute : Z; second : Z; microsecond : Z
}.

Fixpoint zeros (n : nat) : string :=
  match n with O => "" | S n' => "0" ++ zeros n' end.

(** ["%0<width>d"] for a non-negative field. *)
Definition pad (width : nat) (z : Z) : string :=
  let s := str_of_Z z in zeros (width - String.length s) ++ s.

(** [datetime.isoformat()]: the fraction is printed only when it is not 0. *)
Definition isoformat (d : datetime) : string :=
  pad 4 (year d) ++ "-" ++ pad 2 (month d) ++ "-" ++ pad 2 (day d) ++ "T"
    ++ pad 2 (hour d) ++ ":" ++ pad 2 (minute d) ++ ":" ++ pad 2 (second d)
    ++ (if microsecond d =? 0 then "" else "." ++ pad 6 (microsecond d)).

End Datetime.
Export Datetime.

(** ** The environment of one collection cycle, and the process state *)

(** A row handed to the session: the four columns [save_metrics_to_database]
    sets.  ([id] and [timestamp] are filled in by the database on insert.) *)
Record TelephonyMetric : Type := mkTelephonyMetric {
  server_type : pyval;
  metric_name : pyval;
  metric_value : pyval;
  unit_ : pyval
}.

(** What the outside world does during one cycle. *)
Record Env : Type := mkEnv {
  requests_get : string -> Z -> result Response;  (* [requests.get(url, timeout=..)] *)
  commit_error : list TelephonyMetric -> option pyexc;
      (* the database's verdict on flushing these rows at commit:
         [None] accepts them all, [Some e] raises [e] and keeps none *)
  utcnow : datetime                               (* [datetime.utcnow()] *)
}.

(** Settings read from the process environment at import time. *)
Record Config : Type := mkConfig {
  MOCK_SERVER_URL : string;
  POLLING_INTERVAL : Z;
  ENABLE_POLLING : bool;
  REQUEST_TIMEOUT : Z
}.

Definition default_config : Config :=
  mkConfig "http://mock-server:8001" 60 true 10.

(** An SQLAlchemy session object: the rows added and not yet flushed, and
    whether [close] has been called on it. *)
Record Session : Type := mkSession {
  pending : list TelephonyMetric;
  closed : bool
}.

(** The module globals of [main.py] the cycle writes, the committed rows
    of table [telephony_metrics], and every session object created so far
    (a session is named by its position in [sessions]). *)
Record World : Type := mkWorld {
  last_collection_time : option datetime;
  metrics_collected_count : Z;
  rows : list TelephonyMetric;
  sessions : list Session
}.

Definition initial_world : World := mkWorld None 0 [] [].

(** ** Statements that read and write the process state and may raise *)

Module Stmt.

Definition M (A : Type) : Type := World -> result A * World.

Definition ret {A} (a : A) : M A := fun w => (Ok a, w).

Definition bind {A B} (c : M A) (k : A -> M B) : M B :=
  fun w => match c w with
           | (Ok a, w') => k a w'
           | (Raise e, w') => (Raise e, w')
           end.

(** A pure computation that may raise. *)
Definition lift {A} (r : result A) : M A := fun w => (r, w).

(** [try: c  except <classes accepted by handles> as e: handler e] *)
Definition try_except {A} (c : M A) (handles : pyexc -> bool)
    (handler : pyexc -> M A) : M A :=
  fun w => match c w with
           | (Ok a, w') => (Ok a, w')
           | (Raise e, w') => if handles e then handler e w' else (Raise e, w')
           end.

Definition modify (f : World -> World) : M unit := fun w => (Ok tt, f w).

End Stmt.
Export Stmt.

Declare Scope stmt_scope.
Delimit Scope stmt_scope with stmt.
Notation "x <- c ;; k" := (bind c (fun x => k))
  (at level 61, c at next level, right associativity) : stmt_scope.
Notation "' p <- c ;; k" := (bind c (fun x => match x with p => k end))
  (at level 61, p pattern, c at next level, right associativity) : stmt_scope.
Notation "c ;; k" := (bind c (fun _ => k))
  (at level 61, right associativity) : stmt_scope.
Open Scope stmt_scope.

(** [except Exception]: every class of the model derives from it. *)
Definition any_Exception (e : pyexc) : bool := true.

(** ** [models.py]: the session and the [DatabaseSession] context manager *)

Module Models.

Definition set_sessions (ss : list Session) (w : World) : World :=
  mkWorld (last_collection_time w) (metrics_collected_count w) (rows w) ss.

Definition set_rows (rs : list TelephonyMetric) (w : World) : World :=
  mkWorld (last_collection_time w) (metrics_collected_count w) rs (sessions w).

(** Replace the session at position [db]. *)
Fixpoint update (ss : list Session) (db : nat) (f : Session -> Session)
    : list Session :=
  match ss, db with
  | [], _ => []
  | s :: ss', O => f s :: ss'
  | s :: ss', S db' => s :: update ss' db' f
  end.

(** [session_maker()]: a fresh open session with nothing pending. *)
Definition session_maker : M nat :=
  fun w => (Ok (List.length (sessions w)),
            set_sessions (sessions w ++ [mkSession [] false])%list w).

(** [db.add(metric)]: with [autoflush=False] the row only joins the
    session's pending list. *)
Definition session_add (db : nat) (metric : TelephonyMetric) : M unit :=
  modify (fun w => set_sessions
    (update (sessions w) db (fun s => mkSession (pending s ++ [metric])%list (closed s))) w).

(** [db.commit()]: the pending rows are flushed in one transaction; the
    database either takes them all or raises and takes none.  When it
    raises, the failed flush is rolled back: the session holds nothing
    pending any more, and it is not closed. *)
Definition session_commit (env : Env) (db : nat) : M unit :=
  fun w =>
    let p := match nth_error (sessions w) db with
             | Some s => pending s
             | None => []
             end in
    match commit_error env p with
    | None =>
        (Ok tt, set_sessions
                  (update (sessions w) db (fun s => mkSession [] (closed s)))
                  (set_rows (rows w ++ p)%list w))
    | Some e =>
        (Raise e, set_sessions
                    (update (sessions w) db (fun s => mkSession [] (closed s))) w)
    end.

(** [db.rollback()]: the pending rows are discarded. *)
Definition session_rollback (db : nat) : M unit :=
  modify (fun w => set_sessions
    (update (sessions w) db (fun s => mkSession [] (closed s))) w).

(** [db.close()]: the session is released; anything pending is dropped. *)
Definition session_close (db : nat) : M unit :=
  modify (fun w => set_sessions
    (update (sessions w) db (fun s => mkSession [] true)) w).

(** [DatabaseSession.__enter__] *)
Definition DatabaseSession_enter : M nat := session_maker.

(** [DatabaseSession.__exit__(exc_type, exc_val, exc_tb)]; it returns
    [None], so an exception of the body is not suppressed. *)
Definition DatabaseSession_exit (env : Env) (db : nat) (exc : option pyexc)
    : M unit :=
  (match exc with
   | Some _ => session_rollback db
   | None => session_commit env db
   end) ;;
  session_close db.

(** [with DatabaseSession(SessionLocal) as db: body db] *)
Definition with_DatabaseSession {A} (env : Env) (body : nat -> M A) : M A :=
  db <- DatabaseSession_enter ;;
  fun w =>
    match body db w with
    | (Ok a, w1) =>
        match DatabaseSession_exit env db None w1 with
        | (Ok _, w2) => (Ok a, w2)
        | (Raise e, w2) => (Raise e, w2)
        end
    | (Raise e, w1) =>
        match DatabaseSession_exit env db (Some e) w1 with
        | (Ok _, w2) => (Raise e, w2)
        | (Raise e', w2) => (Raise e', w2)
        end
    end.

End Models.
Export Models.

(** ** [main.py]: fetching, saving, the orchestrator, the health endpoint *)

Declare Scope result_scope.
Delimit Scope result_scope with result.
Notation "x <- c ;; k" := (rbind c (fun x => k))
  (at level 61, c at next level, right associativity) : result_scope.

Module Gateway.

(** A flat record as the fetch functions build it: a dict with the keys
    [server_type], [metric_name], [metric_value], [unit], in this order. *)
Definition flat_record (server_type : pyval) (metric_name : string)
    (value unit : pyval) : pydict :=
  [ ("server_type", server_type);
    ("metric_name", PyStr metric_name);
    ("metric_value", value);
    ("unit", unit) ].

(** The loop [for metric_name, metric_info in metrics_data.items():
    metrics.append({...})], the same text in both fetch functions. *)
Fixpoint flatten (server_type : pyval) (its : list (string * pyval))
    : result (list pydict) :=
  match its with
  | [] => Ok []
  | (metric_name, metric_info) :: rest =>
      (value <- getitem metric_info "value" ;;
       unit <- getitem metric_info "unit" ;;
       metrics <- flatten server_type rest ;;
       Ok (flat_record server_type metric_name value unit :: metrics))%result
  end.

Definition fetch_uccx_metrics (cfg : Config) (env : Env) : result (list pydict) :=
  (let url := MOCK_SERVER_URL cfg ++ "/api/uccx/stats" in
   response <- requests_get env url (REQUEST_TIMEOUT cfg) ;;
   _ <- raise_for_status response ;;
   data <- json response ;;
   server_type <- get data "server_type" (PyStr "uccx") ;;
   metrics_data <- get data "metrics" (PyDict []) ;;
   its <- items metrics_data ;;
   flatten server_type its)%result.

Definition fetch_cucm_metrics (cfg : Config) (env : Env) : result (list pydict) :=
  (let url := MOCK_SERVER_URL cfg ++ "/api/cucm/system/stats" in
   response <- requests_get env url (REQUEST_TIMEOUT cfg) ;;
   _ <- raise_for_status response ;;
   data <- json response ;;
   server_type <- get data "server_type" (PyStr "cucm") ;;
   metrics_data <- get data "metrics" (PyDict []) ;;
   its <- items metrics_data ;;
   flatten server_type its)%result.

(** The body of the [with] block of [save_metrics_to_database]:
    the loop over [metrics], carrying [count]. *)
Fixpoint add_metrics (db : nat) (metrics : list pydict) (count : Z) : M Z :=
  match metrics with
  | [] => ret count
  | metric_data :: rest =>
      st <- lift (dict_getitem metric_data "server_type") ;;
      mn <- lift (dict_getitem metric_data "metric_name") ;;
      mv <- lift (dict_getitem metric_data "metric_value") ;;
      un <- lift (dict_getitem metric_data "unit") ;;
      session_add db (mkTelephonyMetric st mn mv un) ;;
      add_metrics db rest (count + 1)
  end.

Definition save_metrics_to_database (env : Env) (metrics : list pydict) : M Z :=
  with_DatabaseSession env (fun db => add_metrics db metrics 0).

(** The dict returned by [collect_all_metrics]. *)
Record Outcome : Type := mkOutcome {
  success : bool;
  uccx_metrics_count : Z;
  cucm_metrics_count : Z;
  total_saved : Z;
  errors : list string;
  timestamp : string
}.

Definition len {A} (l : list A) : Z := Z.of_nat (List.length l).

Definition add_collected (n : Z) (w : World) : World :=
  mkWorld (last_collection_time w) (metrics_collected_count w + n)
          (rows w) (sessions w).

Definition set_last_collection_time (d : datetime) (w : World) : World :=
  mkWorld (Some d) (metrics_collected_count w) (rows w) (sessions w).

Definition collect_all_metrics (cfg : Config) (env : Env) : M Outcome :=
  let errors : list string := [] in
  let all_metrics : list pydict := [] in
  let uccx_count := 0 in
  let cucm_count := 0 in
  (* Collect UCCX metrics *)
  ' (all_metrics, uccx_count, errors) <-
    try_except
      (uccx_metrics <- lift (fetch_uccx_metrics cfg env) ;;
       ret ((all_metrics ++ uccx_metrics)%list, len uccx_metrics, errors))
      is_RequestException
      (fun e =>
         let error_msg := "Failed to fetch UCCX metrics: " ++ exc_str e in
         ret (all_metrics, uccx_count, (errors ++ [error_msg])%list)) ;;
  (* Collect CUCM metrics *)
  ' (all_metrics, cucm_count, errors) <-
    try_except
      (cucm_metrics <- lift (fetch_cucm_metrics cfg env) ;;
       ret ((all_metrics ++ cucm_metrics)%list, len cucm_metrics, errors))
      is_RequestException
      (fun e =>
         let error_msg := "Failed to fetch CUCM metrics: " ++ exc_str e in
         ret (all_metrics, cucm_count, (errors ++ [error_msg])%list)) ;;
  (* Save to database if we have any metrics *)
  let total_saved := 0 in
  ' (total_saved, errors) <-
    match all_metrics with
    | _ :: _ =>
        try_except
          (total_saved <- save_metrics_to_database env all_metrics ;;
           modify (add_collected total_saved) ;;
           ret (total_saved, errors))
          any_Exception
          (fun e =>
             let error_msg := "Failed to save metrics to database: " ++ exc_str e in
             ret (total_saved, (errors ++ [error_msg])%list))
    | [] => ret (total_saved, errors)
    end ;;
  modify (set_last_collection_time (utcnow env)) ;;
  ret {| success := (len errors =? 0);
         uccx_metrics_count := uccx_count;
         cucm_metrics_count := cucm_count;
         total_saved := total_saved;
         errors := errors;
         timestamp := isoformat (utcnow env) |}.

(** The dict returned by [GET /health]. *)
Record Health : Type := mkHealth {
  h_status : string;
  h_timestamp : string;
  h_service : string;
  h_polling_enabled : bool;
  h_polling_interval_seconds : Z;
  h_last_collection : option string;
  h_total_metrics_collected : Z
}.

Definition health_check (cfg : Config) (now : datetime) (w : World) : Health :=
  {| h_status := "healthy";
     h_timestamp := isoformat now;
     h_service := "proxy-gateway";
     h_polling_enabled := ENABLE_POLLING cfg;
     h_polling_interval_seconds := POLLING_INTERVAL cfg;
     h_last_collection :=
       match last_collection_time w with
       | Some t => Some (isoformat t)
       | None => None
       end;
     h_total_metrics_collected := metrics_collected_count w |}.

(** Successive calls of [collect_all_metrics], one environment per call,
    each starting from the state its predecessor left (whether that call
    returned or raised). *)
Fixpoint run_cycles (cfg : Config) (envs : list Env) (w : World) : World :=
  match envs with
  | [] => w
  | env :: rest => run_cycles cfg rest (snd (collect_all_metrics cfg env w))
  end.

End Gateway.
Export Gateway.

(** ** Vocabulary for the statements *)

(** The two sources, in the order the orchestrator calls them. *)
Inductive source : Type := UCCX | CUCM.

Definition other (s : source) : source :=
  match s with UCCX => CUCM | CUCM => UCCX end.

Definition fetch (s : source) (cfg : Config) (env : Env) : result (list pydict) :=
  match s with
  | UCCX => fetch_uccx_metrics cfg env
  | CUCM => fetch_cucm_metrics cfg env
  end.

(** The URL a source is fetched from. *)
Definition endpoint (s : source) (cfg : Config) : string :=
  match s with
  | UCCX => MOCK_SERVER_URL cfg ++ "/api/uccx/stats"
  | CUCM => MOCK_SERVER_URL cfg ++ "/api/cucm/system/stats"
  end.

Definition count_of (s : source) (o : Outcome) : Z :=
  match s with
  | UCCX => uccx_metrics_count o
  | CUCM => cucm_metrics_count o
  end.

Definition source_name (s : source) : string :=
  match s with UCCX => "UCCX" | CUCM => "CUCM" end.

(** The entry of [errors] for a fetch of [s] that raised [e]. *)
Definition fetch_error_msg (s : source) (e : pyexc) : string :=
  "Failed to fetch " ++ source_name s ++ " metrics: " ++ exc_str e.

(** The entry of [errors] for a store write that raised [e]. *)
Definition save_error_msg (e : pyexc) : string :=
  "Failed to save metrics to database: " ++ exc_str e.

(** What a fetch contributes to the batch: its records, or nothing. *)
Definition records (r : result (list pydict)) : list pydict :=
  match r with Ok l => l | Raise _ => [] end.

(** [all_metrics] as it stands when the store step is reached. *)
Definition batch_of (cfg : Config) (env : Env) : list pydict :=
  (records (fetch_uccx_metrics cfg env) ++ records (fetch_cucm_metrics cfg env))%list.

(** The entries the two fetch steps leave in [errors]. *)
Definition error_of (s : source) (r : result (list pydict)) : list string :=
  match r with Ok _ => [] | Raise e => [fetch_error_msg s e] end.

Definition fetch_errors (cfg : Config) (env : Env) : list string :=
  (error_of UCCX (fetch_uccx_metrics cfg env)
     ++ error_of CUCM (fetch_cucm_metrics cfg env))%list.

(** The returned dict, given what the store step left. *)
Definition report (cfg : Config) (env : Env) (saved : Z) (errs : list string)
    : Outcome :=
  {| success := (len errs =? 0);
     uccx_metrics_count := len (records (fetch_uccx_metrics cfg env));
     cucm_metrics_count := len (records (fetch_cucm_metrics cfg env));
     total_saved := saved;
     errors := errs;
     timestamp := isoformat (utcnow env) |}.

(** The entry the store step leaves in [errors], if it ran and raised. *)
Definition store_errors (env : Env) (w : World) (batch : list pydict) : list string :=
  match batch with
  | [] => []
  | _ :: _ =>
      match fst (save_metrics_to_database env batch w) with
      | Ok _ => []
      | Raise e => [save_error_msg e]
      end
  end.

(** A fetch whose failure, if any, the orchestrator's [except] accepts. *)
Definition captured {A} (r : result A) : Prop :=
  forall e, r = Raise e -> is_RequestException e = true.

(** The store write of this batch, if the cycle attempts one, returns. *)
Definition store_write_succeeds (env : Env) (w : World) (batch : list pydict) : Prop :=
  batch <> [] -> exists n, fst (save_metrics_to_database env batch w) = Ok n.

(** The row built from a record; a missing key shows as [None] here (the
    loop of [save_metrics_to_database] raises on it instead, see
    [build_rows]). *)
Definition to_row (m : pydict) : TelephonyMetric :=
  let field k := match lookup m k with Some v => v | None => PyNone end in
  mkTelephonyMetric (field "server_type") (field "metric_name")
                    (field "metric_value") (field "unit").

(** The rows the loop of [save_metrics_to_database] adds before it ends,
    and the exception that ends it early, if any. *)
Fixpoint build_rows (metrics : list pydict) : list TelephonyMetric * option pyexc :=
  match metrics with
  | [] => ([], None)
  | m :: rest =>
      match (st <- dict_getitem m "server_type" ;;
             mn <- dict_getitem m "metric_name" ;;
             mv <- dict_getitem m "metric_value" ;;
             un <- dict_getitem m "unit" ;;
             Ok (mkTelephonyMetric st mn mv un))%result with
      | Ok r => let (rs, e) := build_rows rest in (r :: rs, e)
      | Raise e => ([], Some e)
      end
  end.

(** A record with the four keys, as [flatten] builds them. *)
Definition is_flat (m : pydict) : Prop :=
  exists st name v u, m = flat_record st name v u.

(** [s] with the rows [rs] added. *)
Definition added (rs : list TelephonyMetric) (s : Session) : Session :=
  mkSession (pending s ++ rs)%list (closed s).

(** ** Sample environments *)

Definition respond (status : Z) (why : string) (body : result pyval)
    : string -> Z -> result Response :=
  fun url _ => Ok (mkResponse status why url body).

(** One answer for the UCCX endpoint and one for the CUCM endpoint. *)
Definition serve (cfg : Config) (uccx cucm : string -> Z -> result Response)
    : string -> Z -> result Response :=
  fun url timeout =>
    if String.eqb url (MOCK_SERVER_URL cfg ++ "/api/uccx/stats")
    then uccx url timeout else cucm url timeout.

Definition payload_ab : pyval :=
  PyDict [ ("server_type", PyStr "uccx");
           ("metrics",
            PyDict [ ("a", PyDict [("value", PyInt 1); ("unit", PyStr "count")]);
                     ("b", PyDict [("value", PyFloat 2.5%float);
                                   ("unit", PyStr "percent")]) ]) ].

Definition payload_cucm : pyval :=
  PyDict [ ("server_type", PyStr "cucm");
           ("metrics",
            PyDict [ ("cpu_usage_percent",
                      PyDict [("value", PyFloat 37.5%float);
                              ("unit", PyStr "percent")]) ]) ].

(** No [metrics] field at all. *)
Definition payload_no_metrics : pyval :=
  PyDict [ ("server_type", PyStr "uccx") ].

(** [metrics] is a list, not a mapping. *)
Definition payload_metrics_list : pyval :=
  PyDict [ ("server_type", PyStr "uccx"); ("metrics", PyList []) ].

(** An entry without its [value] key. *)
Definition payload_no_value : pyval :=
  PyDict [ ("server_type", PyStr "cucm");
           ("metrics", PyDict [ ("cpu_usage_percent",
                                 PyDict [("unit", PyStr "percent")]) ]) ].

(** An entry without its [unit] key. *)
Definition payload_no_unit : pyval :=
  PyDict [ ("server_type", PyStr "uccx");
           ("metrics", PyDict [ ("a", PyDict [("value", PyInt 1)]) ]) ].

(** A NaN among the values (Python's JSON decoder reads the literal). *)
Definition payload_nan : pyval :=
  PyDict [ ("server_type", PyStr "uccx");
           ("metrics",
            PyDict [ ("a", PyDict [("value", PyFloat PrimFloat.nan);
                                   ("unit", PyStr "count")]);
                     ("b", PyDict [("value", PyFloat 2.5%float);
                                   ("unit", PyStr "percent")]) ]) ].

(** A [null] for a value. *)
Definition payload_null_value : pyval :=
  PyDict [ ("server_type", PyStr "uccx");
           ("metrics", PyDict [ ("a", PyDict [("value", PyNone);
                                              ("unit", PyStr "count")]) ]) ].

Definition noon : datetime := mkDatetime 2024 1 2 12 0 0 0.
Definition later : datetime := mkDatetime 2024 1 2 12 1 0 250.

Definition accept_all : list TelephonyMetric -> option pyexc := fun _ => None.

Definition database_down : list TelephonyMetric -> option pyexc :=
  fun _ => Some (mkExc SQLAlchemyError "connection refused").

(** The four columns are declared [nullable=False]: a database that
    refuses, at commit, a batch with a [None] in one of them. *)
Definition refuse_null : list TelephonyMetric -> option pyexc :=
  fun rs =>
    let is_none v := match v with PyNone => true | _ => false end in
    if existsb (fun r => is_none (server_type r) || is_none (metric_name r)
                         || is_none (metric_value r) || is_none (unit_ r)) rs
    then Some (mkExc SQLAlchemyError "null value violates not-null constraint")
    else None.

Definition timed_out : string -> Z -> result Response :=
  fun _ _ => Raise (mkExc RequestException "Read timed out. (read timeout=10)").

(** Both sources answer, the database accepts. *)
Definition env_ok : Env :=
  mkEnv (serve default_config (respond 200 "OK" (Ok payload_ab))
                              (respond 200 "OK" (Ok payload_cucm)))
        accept_all noon.

(** Both sources answer, the commit fails. *)
Definition env_db_down : Env :=
  mkEnv (serve default_config (respond 200 "OK" (Ok payload_ab))
                              (respond 200 "OK" (Ok payload_cucm)))
        database_down noon.

(** UCCX times out, CUCM answers. *)
Definition env_uccx_timeout : Env :=
  mkEnv (serve default_config timed_out (respond 200 "OK" (Ok payload_cucm)))
        accept_all later.

(** UCCX answers, a CUCM entry lacks its [value]. *)
Definition env_cucm_no_value : Env :=
  mkEnv (serve default_config (respond 200 "OK" (Ok payload_ab))
                              (respond 200 "OK" (Ok payload_no_value)))
        accept_all noon.

(** A UCCX entry lacks its [unit], CUCM answers. *)
Definition env_uccx_no_unit : Env :=
  mkEnv (serve default_config (respond 200 "OK" (Ok payload_no_unit))
                              (respond 200 "OK" (Ok payload_cucm)))
        accept_all noon.

(** UCCX reports a [null] value, the columns are not nullable. *)
Definition env_null_value : Env :=
  mkEnv (serve default_config (respond 200 "OK" (Ok payload_null_value))
                              (respond 200 "OK" (Ok payload_cucm)))
        refuse_null noon.

(** UCCX reports a NaN, the database accepts. *)
Definition env_nan : Env :=
  mkEnv (serve default_config (respond 200 "OK" (Ok payload_nan))
                              (respond 200 "OK" (Ok payload_cucm)))
        accept_all noon.

(** The UCCX answer has no [metrics] field. *)
Definition env_no_metrics : Env :=
  mkEnv (serve default_config (respond 200 "OK" (Ok payload_no_metrics))
                              (respond 200 "OK" (Ok payload_cucm)))
        accept_all noon.

(** The UCCX answer has a list for [metrics]. *)
Definition env_metrics_list : Env :=
  mkEnv (serve default_config (respond 200 "OK" (Ok payload_metrics_list))
                              (respond 200 "OK" (Ok payload_cucm)))
        accept_all noon.

(** The UCCX endpoint answers 503. *)
Definition env_uccx_503 : Env :=
  mkEnv (serve default_config (respond 503 "Service Unavailable" (Ok PyNone))
                              (respond 200 "OK" (Ok payload_cucm)))
        accept_all noon.

(** ** The manual trigger *)

Module Api.

(** The [partial_results] and the [detail] of the 502 answer. *)
Record PartialResults : Type := mkPartialResults {
  pr_uccx_metrics_count : Z;
  pr_cucm_metrics_count : Z;
  pr_total_saved : Z
}.

Record Detail : Type := mkDetail {
  message : string;
  detail_errors : list string;
  partial_results : PartialResults
}.

(** How a route function ends: it returns, it raises [HTTPException], or
    an exception of the code it calls leaves it. *)
Inductive reply (A : Type) : Type :=
| Returned (a : A)
| HTTPException (status : Z) (detail : Detail)
| Raised (e : pyexc).
Arguments Returned {A} a.
Arguments HTTPException {A} status detail.
Arguments Raised {A} e.

(** [GET /api/collect] *)
Definition trigger_collection (cfg : Config) (env : Env) (w : World)
    : reply Outcome * World :=
  match collect_all_metrics cfg env w with
  | (Ok result, w') =>
      if negb (success result) then
        (HTTPException 502
           {| message := "Collection completed with errors";
              detail_errors := errors result;
              partial_results :=
                {| pr_uccx_metrics_count := uccx_metrics_count result;
                   pr_cucm_metrics_count := cucm_metrics_count result;
                   pr_total_saved := total_saved result |} |},
         w')
      else (Returned result, w')
  | (Raise e, w') => (Raised e, w')
  end.

End Api.
Export Api.

(** ** [mock-server/main.py]: the two stats endpoints

    Every quantity the endpoints compute from [random] and float
    arithmetic is an input here, of any value; the integer clamps and the
    shape of the answer are the source's. *)

Module MockServer.

Record UccxDraws : Type := mkUccxDraws {
  agents_raw : Z;          (* [int(base_agents * daily_cycle * random_factor)] *)
  queue_raw : Z;           (* [int(base_queue * daily_cycle * random.uniform(0.5, 1.5))] *)
  avg_handle_time : float; (* [round(random.uniform(120, 300), 1)] *)
  service_level : pyval;   (* [round(service_level, 1)] *)
  abandoned_calls : Z      (* [int(calls_in_queue * random.uniform(0.05, 0.15))] *)
}.

Definition metric (value : pyval) (unit description : string) : pyval :=
  PyDict [ ("value", value); ("unit", PyStr unit);
           ("description", PyStr description) ].

Definition get_uccx_stats (d : UccxDraws) (now : datetime) : pyval :=
  let active_agents := Z.max 10 (Z.min 100 (agents_raw d)) in
  let calls_in_queue := Z.max 0 (Z.min 50 (queue_raw d)) in
  PyDict
    [ ("server_type", PyStr "uccx");
      ("timestamp", PyStr (isoformat now));
      ("metrics",
       PyDict
         [ ("active_agents",
            metric (PyInt active_agents) "count"
                   "Number of agents currently logged in");
           ("calls_in_queue",
            metric (PyInt calls_in_queue) "count"
                   "Number of calls waiting in queue");
           ("avg_handle_time",
            metric (PyFloat (avg_handle_time d)) "seconds"
                   "Average call handling time");
           ("service_level_percent",
            metric (service_level d) "percent"
                   "Percentage of calls answered within SLA");
           ("abandoned_calls",
            metric (PyInt (abandoned_calls d)) "count"
                   "Calls abandoned while in queue") ]) ].

Record CucmDraws : Type := mkCucmDraws {
  calls_raw : Z;           (* [int(base_calls + random.uniform(-200, 300))] *)
  cpu_usage : pyval;       (* [round(cpu_usage, 1)] *)
  memory_usage : pyval;    (* [round(memory_usage, 1)] *)
  registered_phones : Z;   (* [int(800 + random.uniform(-50, 50))] *)
  failed_calls : Z;        (* [int(active_calls * failure_rate * random.uniform(0.5, 1.5))] *)
  total_call_volume : Z    (* [int(active_calls * random.uniform(1.2, 2.0))] *)
}.

Definition get_cucm_stats (d : CucmDraws) (now : datetime) : pyval :=
  let active_calls := Z.max 50 (calls_raw d) in
  PyDict
    [ ("server_type", PyStr "cucm");
      ("timestamp", PyStr (isoformat now));
      ("metrics",
       PyDict
         [ ("cpu_usage_percent",
            metric (cpu_usage d) "percent" "System CPU utilization");
           ("memory_usage_percent",
            metric (memory_usage d) "percent" "System memory utilization");
           ("active_calls",
            metric (PyInt active_calls) "count" "Number of active voice calls");
           ("registered_phones",
            metric (PyInt (registered_phones d)) "count"
                   "Registered IP phones/endpoints");
           ("failed_calls",
            metric (PyInt (failed_calls d)) "count"
                   "Failed call attempts in last interval");
           ("total_call_volume",
            metric (PyInt (total_call_volume d)) "count"
                   "Total calls processed (includes completed)") ]) ].

End MockServer.
Export MockServer.

(** ** Further vocabulary *)

(** An entry of the [metrics] mapping from which both keys can be read. *)
Definition well_formed_entry (info : pyval) : bool :=
  match getitem info "value", getitem info "unit" with
  | Ok _, Ok _ => true
  | _, _ => false
  end.

Definition entry_field (info : pyval) (k : string) : pyval :=
  match getitem info k with Ok v => v | Raise _ => PyNone end.

(** The record of one entry of the mapping. *)
Definition record_of (tag : pyval) (entry : string * pyval) : pydict :=
  flat_record tag (fst entry) (entry_field (snd entry) "value")
              (entry_field (snd entry) "unit").

(** The tag a fetch of [s] uses when the answer has none. *)
Definition default_tag (s : source) : pyval :=
  PyStr (match s with UCCX => "uccx" | CUCM => "cucm" end).

(** A record from which the loop of [save_metrics_to_database] can read
    the four keys. *)
Definition has_keys (m : pydict) : bool :=
  match lookup m "server_type", lookup m "metric_name",
        lookup m "metric_value", lookup m "unit" with
  | Some _, Some _, Some _, Some _ => true
  | _, _, _, _ => false
  end.

(** The sessions on which [close] was never called. *)
Definition open_sessions (w : World) : Z :=
  len (filter (fun s => negb (closed s)) (sessions w)).

(** [env] reaches the mock server: both endpoints answer 200 with what
    the mock's route functions return for the given draws. *)
Definition served_by_mock (cfg : Config) (env : Env)
    (du : UccxDraws) (dc : CucmDraws) (tu tc : datetime) : Prop :=
  (exists ru, requests_get env (endpoint UCCX cfg) (REQUEST_TIMEOUT cfg) = Ok ru
              /\ Http.status_code ru = 200
              /\ json ru = Ok (get_uccx_stats du tu))
  /\ (exists rc, requests_get env (endpoint CUCM cfg) (REQUEST_TIMEOUT cfg) = Ok rc
                 /\ Http.status_code rc = 200
                 /\ json rc = Ok (get_cucm_stats dc tc)).

(** A sample environment in front of the mock server. *)
Definition sample_uccx_draws : UccxDraws :=
  mkUccxDraws 140 (-3) 187.5%float (PyFloat 91.5%float) 2.

Definition sample_cucm_draws : CucmDraws :=
  mkCucmDraws 20 (PyFloat 31.5%float) (PyInt 90) 812 4 700.

Definition env_mock : Env :=
  mkEnv (serve default_config
           (respond 200 "OK" (Ok (get_uccx_stats sample_uccx_draws noon)))
           (respond 200 "OK" (Ok (get_cucm_stats sample_cucm_draws noon))))
        accept_all later.

(** * Properties *)

(** ** Sanity checks of the embedding *)

Example str_of_Z_404 : str_of_Z 404 = "404".
Proof. reflexivity. Qed.

Example non_finite_nan : non_finite (PyFloat PrimFloat.nan) = true
/\ non_finite (PyFloat 2.5%float) = false.
Proof. split; reflexivity. Qed.

Example isoformat_noon : isoformat noon = "2024-01-02T12:00:00"
  /\ isoformat later = "2024-01-02T12:01:00.000250".
Proof. split; reflexivity. Qed.

Example raise_for_status_503 :
  raise_for_status (mkResponse 503 "Service Unavailable" "http://h/x" (Ok PyNone))
  = Raise (mkExc RequestException "503 Server Error: Service Unavailable for url: http://h/x").
Proof. reflexivity. Qed.

Example getitem_missing_key :
  getitem (PyDict [("unit", PyStr "percent")]) "value" = Raise (mkExc KeyError "'value'").
Proof. reflexivity. Qed.

(** ** The session store *)

Section SessionStore.

Lemma set_sessions_same (w : World) : set_sessions (sessions w) w = w.
Proof. destruct w; reflexivity. Qed.

Lemma update_ext (f g : Session -> Session) :
  (forall s, f s = g s) -> forall ss db, update ss db f = update ss db g.
Proof.
  intros E ss; induction ss as [|s ss IH]; intros [|db]; simpl; trivial.
  - now rewrite E.
  - now rewrite IH.
Qed.

Lemma update_id (ss : list Session) (db : nat) :
  update ss db (fun s => s) = ss.
Proof.
  revert db; induction ss as [|s ss IH]; intros [|db]; simpl; trivial.
  now rewrite IH.
Qed.

Lemma update_update (f g : Session -> Session) (ss : list Session) (db : nat) :
  update (update ss db f) db g = update ss db (fun s => g (f s)).
Proof.
  revert db; induction ss as [|s ss IH]; intros [|db]; simpl; trivial.
  now rewrite IH.
Qed.

Lemma update_last (f : Session -> Session) (ss : list Session) (s : Session) :
  update (ss ++ [s])%list (List.length ss) f = (ss ++ [f s])%list.
Proof. induction ss as [|x ss IH]; simpl; [trivial | now rewrite IH]. Qed.

Lemma nth_error_last (ss : list Session) (s : Session) :
  nth_error (ss ++ [s])%list (List.length ss) = Some s.
Proof. induction ss as [|x ss IH]; simpl; trivial. Qed.

Lemma added_nil (s : Session) : added [] s = s.
Proof. destruct s; unfold added; simpl; now rewrite app_nil_r. Qed.

Lemma added_cons (r : TelephonyMetric) (rs : list TelephonyMetric) (s : Session) :
  added rs (added [r] s) = added (r :: rs) s.
Proof. unfold added; simpl; now rewrite <- app_assoc. Qed.

End SessionStore.

(** ** [save_metrics_to_database] *)

Section Save.

Variable env : Env.

(** Closes a branch in which the loop raised before adding a row. *)
Ltac session_untouched :=
  now rewrite (update_ext _ (fun s => s) added_nil), update_id, set_sessions_same.

(** The loop adds to the session exactly the rows of [build_rows], and
    returns the number of records unless a lookup raised. *)
Lemma add_metrics_eq (db : nat) (metrics : list pydict) :
  forall (count : Z) (w : World),
    add_metrics db metrics count w =
    (match snd (build_rows metrics) with
     | None => Ok (count + len metrics)
     | Some e => Raise e
     end,
     set_sessions (update (sessions w) db (added (fst (build_rows metrics)))) w).
Proof.
  induction metrics as [|m rest IH]; intros count w.
  - simpl. unfold ret, len; simpl. rewrite Z.add_0_r.
    rewrite (update_ext _ (fun s => s) added_nil), update_id, set_sessions_same.
    reflexivity.
  - cbn [add_metrics build_rows]. unfold bind at 1, lift at 1.
    destruct (dict_getitem m "server_type") as [st|e]; cbn [rbind];
      [| session_untouched].
    unfold bind at 1, lift at 1.
    destruct (dict_getitem m "metric_name") as [mn|e]; cbn [rbind];
      [| session_untouched].
    unfold bind at 1, lift at 1.
    destruct (dict_getitem m "metric_value") as [mv|e]; cbn [rbind];
      [| session_untouched].
    unfold bind at 1, lift at 1.
    destruct (dict_getitem m "unit") as [un|e]; cbn [rbind];
      [| session_untouched].
    unfold bind at 1, session_add, modify. rewrite IH.
    destruct (build_rows rest) as [rs oe]; cbn [fst snd].
    f_equal.
    + destruct oe; trivial. f_equal. unfold len; cbn [List.length]. lia.
    + cbn [set_sessions sessions last_collection_time metrics_collected_count rows].
      unfold set_sessions; destruct w; cbn.
      rewrite update_update.
      now rewrite (update_ext _ (added (mkTelephonyMetric st mn mv un :: rs))
                     (added_cons _ rs)).
Qed.

(** The three ways the call can end. *)
Lemma save_metrics_to_database_eq (metrics : list pydict) (w : World) :
  save_metrics_to_database env metrics w =
  match build_rows metrics with
  | (rs, None) =>
      match commit_error env rs with
      | None =>
          (Ok (len metrics),
           mkWorld (last_collection_time w) (metrics_collected_count w)
                   (rows w ++ rs) (sessions w ++ [mkSession [] true]))
      | Some e =>
          (Raise e,
           mkWorld (last_collection_time w) (metrics_collected_count w)
                   (rows w) (sessions w ++ [mkSession [] false]))
      end
  | (rs, Some e) =>
      (Raise e,
       mkWorld (last_collection_time w) (metrics_collected_count w)
               (rows w) (sessions w ++ [mkSession [] true]))
  end%list.
Proof.
  unfold save_metrics_to_database, with_DatabaseSession, DatabaseSession_enter,
    session_maker. unfold bind at 1. rewrite add_metrics_eq.
  destruct w as [t n rs0 ss]; cbn [sessions set_sessions last_collection_time
    metrics_collected_count rows].
  rewrite update_last.
  destruct (build_rows metrics) as [rs [e|]]; cbn [fst snd].
  - unfold DatabaseSession_exit, bind, session_rollback, session_close, modify;
      cbn. rewrite !update_last. reflexivity.
  - unfold DatabaseSession_exit, bind, session_commit, session_close, modify;
      cbn. rewrite nth_error_last. unfold added; cbn.
    destruct (commit_error env rs); cbn; rewrite !update_last; reflexivity.
Qed.

(** When the database takes every row, the batch is committed whole, the
    count is the number of records, and the session is closed. *)
Lemma save_all_accepted (metrics : list pydict) (w : World) (rs : list TelephonyMetric) :
  build_rows metrics = (rs, None) ->
  commit_error env rs = None ->
  save_metrics_to_database env metrics w =
  (Ok (len metrics),
   mkWorld (last_collection_time w) (metrics_collected_count w)
           (rows w ++ rs) (sessions w ++ [mkSession [] true]))%list.
Proof. intros Hb Hc. now rewrite save_metrics_to_database_eq, Hb, Hc. Qed.

(** When the loop raises, the session is rolled back and closed, and no
    row of the batch reaches the table. *)
Lemma save_loop_raises (metrics : list pydict) (w : World)
    (rs : list TelephonyMetric) (e : pyexc) :
  build_rows metrics = (rs, Some e) ->
  save_metrics_to_database env metrics w =
  (Raise e,
   mkWorld (last_collection_time w) (metrics_collected_count w)
           (rows w) (sessions w ++ [mkSession [] true]))%list.
Proof. intros Hb. now rewrite save_metrics_to_database_eq, Hb. Qed.

(** C5: the write is all-or-nothing, but the session is not always
    closed.  When [commit] itself raises, [__exit__] is left by that
    exception before it reaches [self.db.close()]: the call raises, the
    table is unchanged, and the session the call created is left
    unclosed. *)
Theorem C5_commit_failure_leaves_session_open (metrics : list pydict) (w : World)
    (rs : list TelephonyMetric) (e : pyexc) :
  build_rows metrics = (rs, None) ->
  commit_error env rs = Some e ->
  exists w' s,
    save_metrics_to_database env metrics w = (Raise e, w')
    /\ rows w' = rows w
    /\ sessions w' = (sessions w ++ [s])%list
    /\ closed s = false.
Proof.
  intros Hb Hc. rewrite save_metrics_to_database_eq, Hb, Hc.
  do 2 eexists. repeat split.
Qed.

End Save.

(** ** The fetch functions *)

Section Fetch.

Lemma flatten_flat (st : pyval) (its : list (string * pyval)) :
  forall l, flatten st its = Ok l -> Forall is_flat l.
Proof.
  induction its as [|[name info] its IH]; intros l; cbn [flatten].
  - intros [= <-]. constructor.
  - destruct (getitem info "value") as [v|]; cbn [rbind]; [|discriminate].
    destruct (getitem info "unit") as [un|]; cbn [rbind]; [|discriminate].
    destruct (flatten st its) as [l'|]; cbn [rbind]; [|discriminate].
    intros [= <-]. constructor; [|now apply IH].
    now exists st, name, v, un.
Qed.

(** Every record a fetch returns has the four keys. *)
Lemma fetch_flat (s : source) (cfg : Config) (env : Env) (l : list pydict) :
  fetch s cfg env = Ok l -> Forall is_flat l.
Proof.
  destruct s; unfold fetch, fetch_uccx_metrics, fetch_cucm_metrics;
    (destruct (requests_get env _ _) as [response|]; cbn [rbind]; [|discriminate]);
    (destruct (raise_for_status response); cbn [rbind]; [|discriminate]);
    (destruct (json response) as [data|]; cbn [rbind]; [|discriminate]);
    (destruct (get data "server_type" _) as [st|]; cbn [rbind]; [|discriminate]);
    (destruct (get data "metrics" _) as [md|]; cbn [rbind]; [|discriminate]);
    (destruct (items md) as [its|]; cbn [rbind]; [|discriminate]);
    apply flatten_flat.
Qed.

Lemma records_flat (s : source) (cfg : Config) (env : Env) :
  Forall is_flat (records (fetch s cfg env)).
Proof.
  destruct (fetch s cfg env) as [l|] eqn:E; cbn; [|constructor].
  exact (fetch_flat _ _ _ _ E).
Qed.

Lemma batch_flat (cfg : Config) (env : Env) : Forall is_flat (batch_of cfg env).
Proof.
  unfold batch_of. apply Forall_app. split.
  - exact (records_flat UCCX cfg env).
  - exact (records_flat CUCM cfg env).
Qed.

(** On such records the loop of [save_metrics_to_database] never raises
    and builds one row per record, in order. *)
Lemma build_rows_flat (l : list pydict) :
  Forall is_flat l -> build_rows l = (map to_row l, None).
Proof.
  induction 1 as [|m l (st & name & v & un & ->) _ IH]; [reflexivity|].
  cbn [build_rows map]. cbn. now rewrite IH.
Qed.

(** What a fetch does with the answer of [requests.get], case by case. *)
Lemma fetch_unfold (s : source) (cfg : Config) (env : Env) :
  fetch s cfg env =
  (response <- requests_get env (endpoint s cfg) (REQUEST_TIMEOUT cfg) ;;
   _ <- raise_for_status response ;;
   data <- json response ;;
   server_type <- get data "server_type"
                    (PyStr (match s with UCCX => "uccx" | CUCM => "cucm" end)) ;;
   metrics_data <- get data "metrics" (PyDict []) ;;
   its <- items metrics_data ;;
   flatten server_type its)%result.
Proof. destruct s; reflexivity. Qed.

Lemma raise_for_status_error (r : Response) :
  400 <= status_code r < 600 ->
  exists e, raise_for_status r = Raise e /\ is_RequestException e = true.
Proof.
  intros H. unfold raise_for_status.
  destruct ((400 <=? status_code r) && (status_code r <? 500)) eqn:E4.
  - eexists. split; reflexivity.
  - destruct ((500 <=? status_code r) && (status_code r <? 600)) eqn:E5.
    + eexists. split; reflexivity.
    + exfalso.
      apply andb_false_iff in E4. apply andb_false_iff in E5.
      rewrite !Z.leb_gt, !Z.ltb_ge in *. lia.
Qed.

(** C7 (amended): a fetch fails with the exception of [requests.get]
    when the request itself fails (network failure, timeout), and with a
    [requests.RequestException] when the status is in 400..599.  A
    response without a [metrics] field does not fail: the default [{}]
    is taken and the fetch succeeds with no record.  A [metrics] field
    that is not a mapping raises [AttributeError], which is not a
    [RequestException]. *)
Theorem C7_fetch_failures (s : source) (cfg : Config) (env : Env) :
  let answer := requests_get env (endpoint s cfg) (REQUEST_TIMEOUT cfg) in
  (forall e, answer = Raise e -> fetch s cfg env = Raise e)
  /\ (forall r, answer = Ok r -> 400 <= status_code r < 600 ->
        exists e, fetch s cfg env = Raise e /\ is_RequestException e = true)
  /\ (forall r d, answer = Ok r -> raise_for_status r = Ok tt ->
        json r = Ok (PyDict d) -> lookup d "metrics" = None ->
        fetch s cfg env = Ok [])
  /\ (forall r d v, answer = Ok r -> raise_for_status r = Ok tt ->
        json r = Ok (PyDict d) -> lookup d "metrics" = Some v ->
        (forall d', v <> PyDict d') ->
        fetch s cfg env = Raise (no_attribute v "items")
        /\ is_RequestException (no_attribute v "items") = false).
Proof.
  intros answer. subst answer. rewrite fetch_unfold.
  split; [|split; [|split]].
  - intros e ->. reflexivity.
  - intros r -> Hst. cbn [rbind].
    destruct (raise_for_status_error r Hst) as (e & -> & He).
    exists e. now split.
  - intros r d -> Hs Hj Hm. cbn [rbind]. rewrite Hs. cbn [rbind]. rewrite Hj.
    cbn [rbind get]. rewrite Hm. reflexivity.
  - intros r d v -> Hs Hj Hm Hv. cbn [rbind]. rewrite Hs. cbn [rbind]. rewrite Hj.
    cbn [rbind get]. rewrite Hm.
    split; [|reflexivity].
    destruct v; try reflexivity. now destruct (Hv d0).
Qed.

End Fetch.

(** ** [collect_all_metrics] *)

Section Orchestrator.

Variables (cfg : Config) (env : Env).

Lemma save_Ok_count (w : World) (metrics : list pydict) (n : Z) :
  fst (save_metrics_to_database env metrics w) = Ok n -> n = len metrics.
Proof.
  rewrite save_metrics_to_database_eq.
  destruct (build_rows metrics) as [rs [e|]]; [discriminate|].
  destruct (commit_error env rs); cbn; congruence.
Qed.

(** The store never touches the two module globals. *)
Lemma save_keeps_globals (w : World) (metrics : list pydict) :
  let w1 := snd (save_metrics_to_database env metrics w) in
  last_collection_time w1 = last_collection_time w
  /\ metrics_collected_count w1 = metrics_collected_count w.
Proof.
  rewrite save_metrics_to_database_eq.
  destruct (build_rows metrics) as [rs [e|]]; [now cbn|].
  destruct (commit_error env rs); now cbn.
Qed.

(** A fetch failure of another class than [RequestException] leaves the
    call at once: the first fetch ... *)
Lemma collect_uccx_propagates (w : World) (e : pyexc) :
  fetch_uccx_metrics cfg env = Raise e ->
  is_RequestException e = false ->
  collect_all_metrics cfg env w = (Raise e, w).
Proof.
  intros Hu He.
  unfold collect_all_metrics, try_except, bind, lift, ret, modify.
  now rewrite Hu, He.
Qed.

(** ... and the second, once the first is over. *)
Lemma collect_cucm_propagates (w : World) (e : pyexc) :
  captured (fetch_uccx_metrics cfg env) ->
  fetch_cucm_metrics cfg env = Raise e ->
  is_RequestException e = false ->
  collect_all_metrics cfg env w = (Raise e, w).
Proof.
  intros Hu Hc He.
  unfold collect_all_metrics, try_except, bind, lift, ret, modify.
  destruct (fetch_uccx_metrics cfg env) as [u|eu].
  - now rewrite Hc, He.
  - rewrite (Hu eu eq_refl). now rewrite Hc, He.
Qed.

(** When both fetches end in a way the orchestrator handles, the whole
    cycle is this. *)
Lemma collect_captured (w : World) :
  captured (fetch_uccx_metrics cfg env) ->
  captured (fetch_cucm_metrics cfg env) ->
  collect_all_metrics cfg env w =
  match batch_of cfg env with
  | [] =>
      (Ok (report cfg env 0 (fetch_errors cfg env)),
       set_last_collection_time (utcnow env) w)
  | _ :: _ =>
      match save_metrics_to_database env (batch_of cfg env) w with
      | (Ok n, w1) =>
          (Ok (report cfg env n (fetch_errors cfg env)),
           set_last_collection_time (utcnow env) (add_collected n w1))
      | (Raise e, w1) =>
          (Ok (report cfg env 0 (fetch_errors cfg env ++ [save_error_msg e])%list),
           set_last_collection_time (utcnow env) w1)
      end
  end.
Proof.
  intros Hu Hc.
  unfold collect_all_metrics, try_except, bind, lift, ret, modify,
    batch_of, fetch_errors, report.
  destruct (fetch_uccx_metrics cfg env) as [u|eu];
    [| rewrite (Hu eu eq_refl)];
    (destruct (fetch_cucm_metrics cfg env) as [c|ec];
     [| rewrite (Hc ec eq_refl)]);
    cbn [records error_of app].
  - destruct (u ++ c)%list as [|m b]; [reflexivity|].
    destruct (save_metrics_to_database env _ w) as [[n|e] w1]; reflexivity.
  - rewrite app_nil_r. destruct u as [|m b]; [reflexivity|].
    destruct (save_metrics_to_database env _ w) as [[n|e] w1]; reflexivity.
  - destruct c as [|m b]; [reflexivity|].
    destruct (save_metrics_to_database env _ w) as [[n|e] w1]; reflexivity.
  - reflexivity.
Qed.

Lemma len_app {A} (l1 l2 : list A) : len (l1 ++ l2)%list = len l1 + len l2.
Proof. unfold len. rewrite length_app. lia. Qed.

Lemma len_nonneg {A} (l : list A) : 0 <= len l.
Proof. unfold len. lia. Qed.

Lemma captured_Ok {A} (a : A) : captured (Ok a).
Proof. intros e H; discriminate. Qed.

Lemma captured_Raise {A} (e : pyexc) :
  is_RequestException e = true -> captured (@Raise A e).
Proof. intros H e' E. now injection E as <-. Qed.

Lemma save_Raise_rows (w : World) (metrics : list pydict) (e : pyexc) :
  fst (save_metrics_to_database env metrics w) = Raise e ->
  rows (snd (save_metrics_to_database env metrics w)) = rows w.
Proof.
  rewrite save_metrics_to_database_eq.
  destruct (build_rows metrics) as [rs [e'|]]; [now cbn|].
  destruct (commit_error env rs); cbn; [trivial | discriminate].
Qed.

(** C2: when both fetches succeed and the store write succeeds, the
    outcome has [success = true], no errors, and [total_saved] is the sum
    of the two per-source counts (which are the numbers of records
    fetched). *)
Theorem C2_all_steps_succeed (w : World) (u c : list pydict) :
  fetch_uccx_metrics cfg env = Ok u ->
  fetch_cucm_metrics cfg env = Ok c ->
  store_write_succeeds env w (u ++ c)%list ->
  exists o w',
    collect_all_metrics cfg env w = (Ok o, w')
    /\ success o = true
    /\ errors o = []
    /\ uccx_metrics_count o = len u
    /\ cucm_metrics_count o = len c
    /\ total_saved o = uccx_metrics_count o + cucm_metrics_count o.
Proof.
  intros Hu Hc Hs.
  rewrite collect_captured by (rewrite ?Hu, ?Hc; apply captured_Ok).
  unfold batch_of, fetch_errors, report. rewrite Hu, Hc. cbn [records error_of app].
  destruct (u ++ c)%list as [|m b] eqn:Hb.
  - do 2 eexists. split; [reflexivity|]. cbn.
    repeat split; trivial.
    rewrite <- len_app, Hb. reflexivity.
  - destruct Hs as [n Hn]; [discriminate|].
    pose proof (save_Ok_count _ _ _ Hn) as Hlen.
    destruct (save_metrics_to_database env (m :: b) w) as [r w1].
    cbn in Hn; subst r.
    do 2 eexists. split; [reflexivity|]. cbn.
    repeat split; trivial.
    rewrite Hlen, <- Hb. apply len_app.
Qed.

(** C3: when both fetches succeed and the store write of their records
    raises, the outcome has [total_saved = 0], exactly one entry in
    [errors] (the store's), per-source counts equal to what was fetched,
    and [success = false]; no row reaches the table. *)
Theorem C3_store_write_fails (w : World) (u c : list pydict) (e : pyexc) :
  fetch_uccx_metrics cfg env = Ok u ->
  fetch_cucm_metrics cfg env = Ok c ->
  (u ++ c)%list <> [] ->
  fst (save_metrics_to_database env (u ++ c)%list w) = Raise e ->
  exists o w',
    collect_all_metrics cfg env w = (Ok o, w')
    /\ total_saved o = 0
    /\ errors o = [save_error_msg e]
    /\ uccx_metrics_count o = len u
    /\ cucm_metrics_count o = len c
    /\ success o = false
    /\ rows w' = rows w.
Proof.
  intros Hu Hc Hne Hs.
  rewrite collect_captured by (rewrite ?Hu, ?Hc; apply captured_Ok).
  unfold batch_of, fetch_errors, report. rewrite Hu, Hc. cbn [records error_of app].
  pose proof (save_Raise_rows _ _ _ Hs) as Hrows.
  destruct (u ++ c)%list as [|m b]; [contradiction|].
  destruct (save_metrics_to_database env (m :: b) w) as [r w1].
  cbn in Hs, Hrows; subst r.
  do 2 eexists. split; [reflexivity|]. cbn. repeat split; trivial.
Qed.

Lemma save_Ok_rows (w : World) (metrics : list pydict) (n : Z) :
  Forall is_flat metrics ->
  fst (save_metrics_to_database env metrics w) = Ok n ->
  rows (snd (save_metrics_to_database env metrics w))
  = (rows w ++ map to_row metrics)%list.
Proof.
  intros Hf. rewrite save_metrics_to_database_eq, (build_rows_flat _ Hf).
  destruct (commit_error env _); cbn; [discriminate | trivial].
Qed.

(** A call that returns has met no fetch failure of a foreign class. *)
Lemma returns_captured (w : World) (o : Outcome) (w' : World) :
  collect_all_metrics cfg env w = (Ok o, w') ->
  captured (fetch_uccx_metrics cfg env) /\ captured (fetch_cucm_metrics cfg env).
Proof.
  intros H.
  assert (Hu : captured (fetch_uccx_metrics cfg env)).
  { intros e E. destruct (is_RequestException e) eqn:R; trivial.
    rewrite (collect_uccx_propagates w e E R) in H. discriminate. }
  split; trivial.
  intros e E. destruct (is_RequestException e) eqn:R; trivial.
  rewrite (collect_cucm_propagates w e Hu E R) in H. discriminate.
Qed.

(** What a returning cycle leaves in the table when the database takes
    the batch: a row for every fetched record, none left out. *)
Lemma collect_rows (w : World) (o : Outcome) (w' : World) :
  collect_all_metrics cfg env w = (Ok o, w') ->
  commit_error env (map to_row (batch_of cfg env)) = None ->
  rows w' = (rows w ++ map to_row (batch_of cfg env))%list
  /\ total_saved o = len (batch_of cfg env).
Proof.
  intros H Hacc. destruct (returns_captured _ _ _ H) as [Hu Hc].
  rewrite (collect_captured w Hu Hc) in H.
  pose proof (batch_flat cfg env) as Hf.
  destruct (batch_of cfg env) as [|m b] eqn:Hb.
  - injection H as <- <-. cbn. now rewrite app_nil_r.
  - rewrite save_metrics_to_database_eq, (build_rows_flat _ Hf), Hacc in H.
    injection H as <- <-. now cbn.
Qed.

(** C4 (amended): when the fetch of one source raises a
    [requests.RequestException], the other fetch succeeds and the store
    write succeeds, the failed source's count is 0, [errors] has exactly
    one entry, which names that source, the other source's records are
    saved ([total_saved] is its count and its rows join the table), and
    [success = false]. *)
Theorem C4_one_fetch_fails (w : World) (s : source) (e : pyexc) (l : list pydict) :
  fetch s cfg env = Raise e ->
  is_RequestException e = true ->
  fetch (other s) cfg env = Ok l ->
  store_write_succeeds env w l ->
  exists o w',
    collect_all_metrics cfg env w = (Ok o, w')
    /\ count_of s o = 0
    /\ errors o = [fetch_error_msg s e]
    /\ count_of (other s) o = len l
    /\ total_saved o = len l
    /\ rows w' = (rows w ++ map to_row l)%list
    /\ success o = false.
Proof.
  intros Hs He Ho Hw.
  pose proof (fetch_flat _ _ _ _ Ho) as Hf.
  assert (Hcap : captured (fetch_uccx_metrics cfg env)
                 /\ captured (fetch_cucm_metrics cfg env)).
  { destruct s; cbn [fetch other] in Hs, Ho; rewrite Hs, Ho;
      split; first [apply captured_Ok | now apply captured_Raise]. }
  destruct Hcap as [Hu Hc]. rewrite (collect_captured w Hu Hc).
  assert (Hb : batch_of cfg env = l).
  { unfold batch_of. destruct s; cbn [fetch other] in Hs, Ho; rewrite Hs, Ho;
      cbn [records app]; auto using app_nil_r. }
  assert (Herr : fetch_errors cfg env = [fetch_error_msg s e]).
  { unfold fetch_errors. destruct s; cbn [fetch other] in Hs, Ho; now rewrite Hs, Ho. }
  assert (Hcs : forall n errs, count_of s (report cfg env n errs) = 0
                /\ count_of (other s) (report cfg env n errs) = len l).
  { intros n errs. destruct s; cbn [fetch other] in Hs, Ho; cbn; now rewrite Hs, Ho. }
  rewrite Hb, Herr. destruct l as [|m b].
  - do 2 eexists. split; [reflexivity|].
    destruct (Hcs 0 [fetch_error_msg s e]) as [-> ->]. cbn.
    repeat split; trivial. now rewrite app_nil_r.
  - destruct Hw as [n Hn]; [discriminate|].
    pose proof (save_Ok_count _ _ _ Hn) as Hlen.
    pose proof (save_Ok_rows _ _ _ Hf Hn) as Hrows.
    destruct (save_metrics_to_database env (m :: b) w) as [r w1].
    cbn in Hn, Hrows; subst r.
    do 2 eexists. split; [reflexivity|].
    destruct (Hcs n [fetch_error_msg s e]) as [-> ->]. cbn.
    repeat split; trivial.
Qed.

(** C1 (amended): a [requests.RequestException] raised by a fetch and any
    exception raised by the store write are captured: the call returns an
    outcome whose [errors] holds one entry per such failure and nothing
    else.  An exception of another class raised inside a fetch (the
    [KeyError] of an entry without [value] or [unit], the [AttributeError]
    or [TypeError] of a malformed payload) is not caught: it leaves the
    call, and the process state is as it was. *)
Theorem C1_captured_or_propagated (w : World) :
  (captured (fetch_uccx_metrics cfg env) ->
   captured (fetch_cucm_metrics cfg env) ->
   exists o w',
     collect_all_metrics cfg env w = (Ok o, w')
     /\ errors o = (fetch_errors cfg env
                      ++ store_errors env w (batch_of cfg env))%list
     /\ (forall s e, fetch s cfg env = Raise e ->
                     In (fetch_error_msg s e) (errors o))
     /\ (forall e, batch_of cfg env <> [] ->
                   fst (save_metrics_to_database env (batch_of cfg env) w) = Raise e ->
                   In (save_error_msg e) (errors o)))
  /\ (forall e, fetch_uccx_metrics cfg env = Raise e ->
                is_RequestException e = false ->
                collect_all_metrics cfg env w = (Raise e, w))
  /\ (forall e, captured (fetch_uccx_metrics cfg env) ->
                fetch_cucm_metrics cfg env = Raise e ->
                is_RequestException e = false ->
                collect_all_metrics cfg env w = (Raise e, w)).
Proof.
  split; [| split].
  - intros Hu Hc.
    assert (Hfe : forall s e, fetch s cfg env = Raise e ->
                              In (fetch_error_msg s e) (fetch_errors cfg env)).
    { intros s e E. unfold fetch_errors. apply in_or_app.
      destruct s; cbn [fetch] in E; rewrite E; cbn; auto. }
    rewrite (collect_captured w Hu Hc). unfold store_errors.
    destruct (batch_of cfg env) as [|m b].
    + do 2 eexists. split; [reflexivity|]. cbn [errors report].
      rewrite app_nil_r. repeat split; auto. intros e Hne; contradiction.
    + destruct (save_metrics_to_database env (m :: b) w) as [[n|e0] w1];
        do 2 eexists; (split; [reflexivity|]); cbn [errors report fst].
      * rewrite app_nil_r. repeat split; auto. intros e _ [=].
      * repeat split; auto.
        -- intros s e E. apply in_or_app. left. now apply Hfe.
        -- intros e _ [= <-]. apply in_or_app. right. now left.
  - intros e. apply collect_uccx_propagates.
  - intros e. apply collect_cucm_propagates.
Qed.

(** C6 (amended): no record is rejected for its value.  The batch
    handed to the store is the concatenation of what was fetched, and
    when the database takes it every record has its row in the table and
    is counted in [total_saved], those with a NaN or infinite value
    included. *)
Theorem C6_no_record_is_dropped (w : World) (o : Outcome) (w' : World) :
  collect_all_metrics cfg env w = (Ok o, w') ->
  commit_error env (map to_row (batch_of cfg env)) = None ->
  rows w' = (rows w ++ map to_row (batch_of cfg env))%list
  /\ total_saved o = len (batch_of cfg env)
  /\ (forall m, In m (batch_of cfg env) ->
                non_finite (metric_value (to_row m)) = true ->
                In (to_row m) (rows w')).
Proof.
  intros H Hacc. destruct (collect_rows _ _ _ H Hacc) as [Hr Ht].
  repeat split; trivial.
  intros m Hm _. rewrite Hr. apply in_or_app. right. now apply in_map.
Qed.

(** C8: the fetch of the payload
    [{"server_type":"uccx","metrics":{"a":{"value":1,"unit":"count"},
    "b":{"value":2.5,"unit":"percent"}}}] returns exactly the record of
    [a] then the record of [b], tag, names, values and units as received;
    and the rows a cycle commits are those of the UCCX records followed
    by those of the CUCM records. *)
Theorem C8_flattening_and_batch_order (w : World) :
  (forall r,
     requests_get env (endpoint UCCX cfg) (REQUEST_TIMEOUT cfg) = Ok r ->
     raise_for_status r = Ok tt ->
     json r = Ok payload_ab ->
     fetch_uccx_metrics cfg env =
     Ok [ flat_record (PyStr "uccx") "a" (PyInt 1) (PyStr "count");
          flat_record (PyStr "uccx") "b" (PyFloat 2.5%float) (PyStr "percent") ])
  /\ (forall u c o w',
        fetch_uccx_metrics cfg env = Ok u ->
        fetch_cucm_metrics cfg env = Ok c ->
        collect_all_metrics cfg env w = (Ok o, w') ->
        commit_error env (map to_row (u ++ c)) = None ->
        rows w' = (rows w ++ map to_row u ++ map to_row c)%list).
Proof.
  split.
  - intros r Hr Hs Hj. change (fetch_uccx_metrics cfg env) with (fetch UCCX cfg env).
    rewrite fetch_unfold, Hr. cbn [rbind]. rewrite Hs. cbn [rbind]. rewrite Hj.
    reflexivity.
  - intros u c o w' Hu Hc H Hacc.
    assert (Hb : batch_of cfg env = (u ++ c)%list)
      by (unfold batch_of; now rewrite Hu, Hc).
    rewrite <- Hb in Hacc. destruct (collect_rows _ _ _ H Hacc) as [-> _].
    now rewrite Hb, map_app.
Qed.

(** The bookkeeping of a cycle that returns ... *)
Lemma collect_bookkeeping (w : World) (o : Outcome) (w' : World) :
  collect_all_metrics cfg env w = (Ok o, w') ->
  last_collection_time w' = Some (utcnow env)
  /\ timestamp o = isoformat (utcnow env)
  /\ metrics_collected_count w' = metrics_collected_count w + total_saved o
  /\ 0 <= total_saved o.
Proof.
  intros H. destruct (returns_captured _ _ _ H) as [Hu Hc].
  rewrite (collect_captured w Hu Hc) in H.
  destruct (batch_of cfg env) as [|m b].
  - injection H as <- <-. cbn. repeat split; lia.
  - pose proof (save_keeps_globals w (m :: b)) as [_ Hk].
    pose proof (save_Ok_count w (m :: b)) as Hn.
    destruct (save_metrics_to_database env (m :: b) w) as [[n|e] w1];
      cbn [fst snd] in Hk, Hn; injection H as <- <-; cbn; rewrite Hk.
    + repeat split; trivial. rewrite (Hn n eq_refl). apply len_nonneg.
    + repeat split; lia.
Qed.

(** ... and of one that raises: nothing has changed. *)
Lemma collect_raises_unchanged (w : World) (e : pyexc) (w' : World) :
  collect_all_metrics cfg env w = (Raise e, w') -> w' = w.
Proof.
  intros H.
  destruct (fetch_uccx_metrics cfg env) as [u|eu] eqn:Eu.
  - destruct (fetch_cucm_metrics cfg env) as [c|ec] eqn:Ec.
    + rewrite collect_captured in H by (rewrite ?Eu, ?Ec; apply captured_Ok).
      destruct (batch_of cfg env); [discriminate|].
      destruct (save_metrics_to_database env _ w) as [[n|e0] w1]; discriminate.
    + destruct (is_RequestException ec) eqn:R.
      * rewrite collect_captured in H
          by (rewrite ?Eu, ?Ec; first [apply captured_Ok | now apply captured_Raise]).
        destruct (batch_of cfg env); [discriminate|].
        destruct (save_metrics_to_database env _ w) as [[n|e0] w1]; discriminate.
      * rewrite (collect_cucm_propagates w ec) in H; trivial.
        -- now injection H.
        -- rewrite Eu. apply captured_Ok.
  - destruct (is_RequestException eu) eqn:R.
    + destruct (fetch_cucm_metrics cfg env) as [c|ec] eqn:Ec.
      * rewrite collect_captured in H
          by (rewrite ?Eu, ?Ec; first [apply captured_Ok | now apply captured_Raise]).
        destruct (batch_of cfg env); [discriminate|].
        destruct (save_metrics_to_database env _ w) as [[n|e0] w1]; discriminate.
      * destruct (is_RequestException ec) eqn:R'.
        -- rewrite collect_captured in H
             by (rewrite ?Eu, ?Ec; now apply captured_Raise).
           destruct (batch_of cfg env); [discriminate|].
           destruct (save_metrics_to_database env _ w) as [[n|e0] w1]; discriminate.
        -- rewrite (collect_cucm_propagates w ec) in H; trivial.
           ++ now injection H.
           ++ rewrite Eu. now apply captured_Raise.
    + rewrite (collect_uccx_propagates w eu Eu R) in H. now injection H.
Qed.

(** C9 (amended): the health endpoint reports the polling flag, the
    configured interval, the lifetime saved count and the time of the
    last collection cycle that returned, whether or not that cycle had
    errors: after any returning cycle [last_collection] is that cycle's
    own timestamp.  A cycle that raises leaves the report as it was. *)
Theorem C9_health_reports_last_cycle (w : World) (now : datetime) :
  h_polling_enabled (health_check cfg now w) = ENABLE_POLLING cfg
  /\ h_polling_interval_seconds (health_check cfg now w) = POLLING_INTERVAL cfg
  /\ h_total_metrics_collected (health_check cfg now w) = metrics_collected_count w
  /\ match collect_all_metrics cfg env w with
     | (Ok o, w') =>
         h_last_collection (health_check cfg now w') = Some (timestamp o)
         /\ h_total_metrics_collected (health_check cfg now w')
            = metrics_collected_count w + total_saved o
     | (Raise _, w') => health_check cfg now w' = health_check cfg now w
     end.
Proof.
  repeat split.
  destruct (collect_all_metrics cfg env w) as [[o|e] w'] eqn:H.
  - destruct (collect_bookkeeping _ _ _ H) as (Ht & Hs & Hc & _).
    unfold health_check; cbn. now rewrite Ht, Hs, Hc.
  - now rewrite (collect_raises_unchanged _ _ _ H).
Qed.

(** [total_saved] is what the store step returned, and 0 when that step
    was skipped or raised. *)
Lemma collect_total_saved (w : World) (o : Outcome) (w' : World) :
  collect_all_metrics cfg env w = (Ok o, w') ->
  total_saved o =
  match batch_of cfg env with
  | [] => 0
  | _ :: _ =>
      match fst (save_metrics_to_database env (batch_of cfg env) w) with
      | Ok n => n
      | Raise _ => 0
      end
  end.
Proof.
  intros H. destruct (returns_captured _ _ _ H) as [Hu Hc].
  rewrite (collect_captured w Hu Hc) in H.
  destruct (batch_of cfg env) as [|m b].
  - now injection H as <- <-.
  - destruct (save_metrics_to_database env (m :: b) w) as [[n|e] w1];
      now injection H as <- <-.
Qed.

End Orchestrator.

(** ** The lifetime counter across cycles *)

Section Lifetime.

Variable cfg : Config.

Lemma collect_count_monotone (env : Env) (w : World) :
  metrics_collected_count w
  <= metrics_collected_count (snd (collect_all_metrics cfg env w)).
Proof.
  destruct (collect_all_metrics cfg env w) as [[o|e] w'] eqn:H; cbn [snd].
  - destruct (collect_bookkeeping _ _ _ _ _ H) as (_ & _ & -> & Hn). lia.
  - rewrite (collect_raises_unchanged _ _ _ _ _ H). lia.
Qed.

(** C10: over any sequence of cycles [metrics_collected_count] never
    decreases.  A cycle that returns adds exactly its [total_saved]: the
    number of records of the batch when the store write succeeds, and
    nothing when the batch is empty or the store write raises.  (A cycle
    that raises adds nothing either.) *)
Theorem C10_lifetime_counter :
  (forall env w o w',
     collect_all_metrics cfg env w = (Ok o, w') ->
     metrics_collected_count w' = metrics_collected_count w + total_saved o
     /\ 0 <= total_saved o
     /\ (forall n, batch_of cfg env <> [] ->
           fst (save_metrics_to_database env (batch_of cfg env) w) = Ok n ->
           total_saved o = n
           /\ metrics_collected_count w' = metrics_collected_count w + n)
     /\ (batch_of cfg env = [] ->
           metrics_collected_count w' = metrics_collected_count w)
     /\ (forall e, batch_of cfg env <> [] ->
           fst (save_metrics_to_database env (batch_of cfg env) w) = Raise e ->
           metrics_collected_count w' = metrics_collected_count w))
  /\ (forall env w e w',
        collect_all_metrics cfg env w = (Raise e, w') ->
        metrics_collected_count w' = metrics_collected_count w)
  /\ (forall envs w,
        metrics_collected_count w
        <= metrics_collected_count (run_cycles cfg envs w)).
Proof.
  split; [|split].
  - intros env w o w' H.
    destruct (collect_bookkeeping _ _ _ _ _ H) as (_ & _ & Hc & Hn).
    pose proof (collect_total_saved _ _ _ _ _ H) as Ht.
    split; [exact Hc|]. split; [exact Hn|].
    destruct (batch_of cfg env) as [|m b].
    + split; [|split].
      * intros n Hne; contradiction.
      * intros _. lia.
      * intros e Hne; contradiction.
    + split; [|split].
      * intros n _ Hs. rewrite Hs in Ht. split; [exact Ht | lia].
      * discriminate.
      * intros e _ Hs. rewrite Hs in Ht. lia.
  - intros env w e w' H. now rewrite (collect_raises_unchanged _ _ _ _ _ H).
  - induction envs as [|env envs IH]; intros w; cbn [run_cycles]; [lia|].
    pose proof (collect_count_monotone env w). specialize (IH (snd (collect_all_metrics cfg env w))). lia.
Qed.

End Lifetime.

Example lifetime_count_run :
  map (fun envs => metrics_collected_count (run_cycles default_config envs initial_world))
      [ [env_ok]; [env_ok; env_db_down]; [env_ok; env_db_down; env_uccx_timeout];
        [env_ok; env_db_down; env_uccx_timeout; env_cucm_no_value] ]
  = [3; 3; 4; 4].
Proof. vm_compute. reflexivity. Qed.

(** C10 at [env_ok] then [env_db_down]. *)
Lemma C10_lifetime_counter_witness :
  (exists o w',
     collect_all_metrics default_config env_ok initial_world = (Ok o, w')
     /\ metrics_collected_count w' = 0 + total_saved o)
  /\ 0 <= metrics_collected_count
            (run_cycles default_config [env_ok; env_db_down] initial_world).
Proof.
  destruct (C10_lifetime_counter default_config) as (H1 & _ & H3).
  split.
  - destruct (collect_all_metrics default_config env_ok initial_world)
      as [[o|e] w'] eqn:H; [|discriminate].
    exists o, w'. split; [reflexivity|].
    exact (proj1 (H1 env_ok initial_world o w' H)).
  - exact (H3 [env_ok; env_db_down] initial_world).
Defined.

(** C2 at [env_ok]: two UCCX records, one CUCM record, all three saved. *)
Lemma C2_all_steps_succeed_witness :
  exists o w',
    collect_all_metrics default_config env_ok initial_world = (Ok o, w')
    /\ success o = true
    /\ errors o = []
    /\ uccx_metrics_count o = 2
    /\ cucm_metrics_count o = 1
    /\ total_saved o = uccx_metrics_count o + cucm_metrics_count o.
Proof.
  apply (C2_all_steps_succeed default_config env_ok initial_world _ _
           eq_refl eq_refl).
  intros _. eexists. reflexivity.
Defined.

(** C3 at [env_db_down]: three records fetched, the commit refused. *)
Lemma C3_store_write_fails_witness :
  exists o w',
    collect_all_metrics default_config env_db_down initial_world = (Ok o, w')
    /\ total_saved o = 0
    /\ errors o = ["Failed to save metrics to database: connection refused"]
    /\ uccx_metrics_count o = 2
    /\ cucm_metrics_count o = 1
    /\ success o = false
    /\ rows w' = [].
Proof.
  apply (C3_store_write_fails default_config env_db_down initial_world _ _
           (mkExc SQLAlchemyError "connection refused") eq_refl eq_refl).
  - discriminate.
  - reflexivity.
Defined.

(** C4 at [env_uccx_timeout]: the CUCM record is saved, the timeout is
    the one entry of [errors]. *)
Lemma C4_one_fetch_fails_witness :
  exists o w',
    collect_all_metrics default_config env_uccx_timeout initial_world = (Ok o, w')
    /\ uccx_metrics_count o = 0
    /\ errors o = ["Failed to fetch UCCX metrics: Read timed out. (read timeout=10)"]
    /\ cucm_metrics_count o = 1
    /\ total_saved o = 1
    /\ rows w' = [mkTelephonyMetric (PyStr "cucm") (PyStr "cpu_usage_percent")
                                    (PyFloat 37.5%float) (PyStr "percent")]
    /\ success o = false.
Proof.
  apply (C4_one_fetch_fails default_config env_uccx_timeout initial_world UCCX
           (mkExc RequestException "Read timed out. (read timeout=10)") _
           eq_refl eq_refl eq_refl).
  intros _. eexists. reflexivity.
Defined.

(** C4 as stated fails when the failure is not a [RequestException]:
    UCCX answers with two records, a CUCM entry lacks its [value]; the
    [KeyError] leaves [collect_all_metrics], no outcome is returned and the
    UCCX records are not saved. *)
Lemma C4_counterexample :
  fetch CUCM default_config env_cucm_no_value = Raise (mkExc KeyError "'value'")
  /\ (exists l, fetch UCCX default_config env_cucm_no_value = Ok l
                /\ List.length l = 2%nat
                /\ store_write_succeeds env_cucm_no_value initial_world l)
  /\ (forall o w',
        collect_all_metrics default_config env_cucm_no_value initial_world
        <> (Ok o, w'))
  /\ rows (snd (collect_all_metrics default_config env_cucm_no_value initial_world))
     = [].
Proof.
  split; [reflexivity|]. split; [|split].
  - eexists. split; [reflexivity|]. split; [reflexivity|].
    intros _. eexists. reflexivity.
  - intros o w'. vm_compute. discriminate.
  - reflexivity.
Qed.

(** C1 at [env_uccx_timeout] (the timeout is captured) and at
    [env_uccx_no_unit] (the [KeyError] leaves the call). *)
Lemma C1_captured_or_propagated_witness :
  (exists o w',
     collect_all_metrics default_config env_uccx_timeout initial_world = (Ok o, w')
     /\ errors o = ["Failed to fetch UCCX metrics: Read timed out. (read timeout=10)"])
  /\ collect_all_metrics default_config env_uccx_no_unit initial_world
     = (Raise (mkExc KeyError "'unit'"), initial_world).
Proof.
  split.
  - destruct (C1_captured_or_propagated default_config env_uccx_timeout initial_world)
      as [H _].
    destruct H as (o & w' & E & Herr & _).
    + apply captured_Raise. reflexivity.
    + apply captured_Ok.
    + exists o, w'. split; [exact E|]. rewrite Herr. reflexivity.
  - destruct (C1_captured_or_propagated default_config env_uccx_no_unit initial_world)
      as (_ & H & _).
    apply H; reflexivity.
Defined.

(** C1 as stated fails: a UCCX entry without its [unit] key makes
    [collect_all_metrics] raise [KeyError] instead of returning an
    outcome. *)
Lemma C1_counterexample :
  collect_all_metrics default_config env_uccx_no_unit initial_world
  = (Raise (mkExc KeyError "'unit'"), initial_world).
Proof. reflexivity. Qed.

(** The same from an upstream answer: a [null] value is fetched like any
    other, the commit of the batch is refused, the cycle reports the store
    failure, and the session of that write is left open. *)
Example null_value_cycle :
  let (r, w') := collect_all_metrics default_config env_null_value initial_world in
  match r with
  | Ok o => errors o = ["Failed to save metrics to database: null value violates not-null constraint"]
            /\ total_saved o = 0
  | Raise _ => False
  end
  /\ rows w' = []
  /\ map closed (sessions w') = [false].
Proof. vm_compute. repeat split. Qed.

(** C5 at a one-record batch and a database that refuses the commit. *)
Lemma C5_commit_failure_leaves_session_open_witness :
  exists w' s,
    save_metrics_to_database env_db_down
      [flat_record (PyStr "uccx") "a" (PyInt 1) (PyStr "count")] initial_world
    = (Raise (mkExc SQLAlchemyError "connection refused"), w')
    /\ rows w' = []
    /\ sessions w' = [s]
    /\ closed s = false.
Proof.
  apply (C5_commit_failure_leaves_session_open env_db_down
           [flat_record (PyStr "uccx") "a" (PyInt 1) (PyStr "count")]
           initial_world _ _ eq_refl eq_refl).
Defined.

(** C6 as stated fails: the NaN that UCCX reports is neither dropped nor
    refused; the cycle succeeds, counts it, and its row is in the table. *)
Lemma C6_counterexample :
  exists o w',
    collect_all_metrics default_config env_nan initial_world = (Ok o, w')
    /\ success o = true
    /\ total_saved o = 3
    /\ exists r, In r (rows w')
                 /\ metric_value r = PyFloat PrimFloat.nan
                 /\ non_finite (metric_value r) = true.
Proof.
  do 2 eexists. split; [vm_compute; reflexivity|]. cbn.
  repeat split. eexists. split; [left; reflexivity|]. split; reflexivity.
Qed.

(** C6 at [env_nan]. *)
Lemma C6_no_record_is_dropped_witness :
  In (mkTelephonyMetric (PyStr "uccx") (PyStr "a") (PyFloat PrimFloat.nan)
                        (PyStr "count"))
     (rows (snd (collect_all_metrics default_config env_nan initial_world))).
Proof.
  destruct (collect_all_metrics default_config env_nan initial_world)
    as [[o|e] w'] eqn:H; [|discriminate].
  destruct (C6_no_record_is_dropped default_config env_nan initial_world o w' H eq_refl)
    as (_ & _ & Hin).
  apply (Hin (flat_record (PyStr "uccx") "a" (PyFloat PrimFloat.nan) (PyStr "count"))).
  - left. reflexivity.
  - reflexivity.
Defined.

(** C7 as stated fails: an answer without [metrics] makes the fetch
    succeed with an empty list of records. *)
Lemma C7_counterexample :
  lookup [("server_type", PyStr "uccx")] "metrics" = None
  /\ fetch_uccx_metrics default_config env_no_metrics = Ok [].
Proof. split; reflexivity. Qed.

(** C7 at a timeout, a 503, an answer without [metrics] and an answer
    whose [metrics] is a list. *)
Lemma C7_fetch_failures_witness :
  fetch UCCX default_config env_uccx_timeout
  = Raise (mkExc RequestException "Read timed out. (read timeout=10)")
  /\ (exists e, fetch UCCX default_config env_uccx_503 = Raise e
                /\ is_RequestException e = true)
  /\ fetch UCCX default_config env_no_metrics = Ok []
  /\ fetch UCCX default_config env_metrics_list
     = Raise (mkExc AttributeError "'list' object has no attribute 'items'").
Proof.
  split; [|split; [|split]].
  - apply (C7_fetch_failures UCCX default_config env_uccx_timeout). reflexivity.
  - destruct (C7_fetch_failures UCCX default_config env_uccx_503) as (_ & H & _).
    apply (H (mkResponse 503 "Service Unavailable"
                "http://mock-server:8001/api/uccx/stats" (Ok PyNone)));
      [reflexivity | cbn; lia].
  - destruct (C7_fetch_failures UCCX default_config env_no_metrics) as (_ & _ & H & _).
    apply (H (mkResponse 200 "OK" "http://mock-server:8001/api/uccx/stats"
                (Ok payload_no_metrics)) [("server_type", PyStr "uccx")]);
      reflexivity.
  - destruct (C7_fetch_failures UCCX default_config env_metrics_list) as (_ & _ & _ & H).
    apply (H (mkResponse 200 "OK" "http://mock-server:8001/api/uccx/stats"
                (Ok payload_metrics_list))
             [("server_type", PyStr "uccx"); ("metrics", PyList [])] (PyList []));
      try reflexivity.
    intros d'. discriminate.
Defined.

(** C8 at [env_ok]. *)
Lemma C8_flattening_and_batch_order_witness :
  fetch_uccx_metrics default_config env_ok =
  Ok [ flat_record (PyStr "uccx") "a" (PyInt 1) (PyStr "count");
       flat_record (PyStr "uccx") "b" (PyFloat 2.5%float) (PyStr "percent") ]
  /\ rows (snd (collect_all_metrics default_config env_ok initial_world)) =
     [ mkTelephonyMetric (PyStr "uccx") (PyStr "a") (PyInt 1) (PyStr "count");
       mkTelephonyMetric (PyStr "uccx") (PyStr "b") (PyFloat 2.5%float) (PyStr "percent");
       mkTelephonyMetric (PyStr "cucm") (PyStr "cpu_usage_percent")
                         (PyFloat 37.5%float) (PyStr "percent") ].
Proof.
  destruct (C8_flattening_and_batch_order default_config env_ok initial_world)
    as [Hf Ho].
  split.
  - apply (Hf (mkResponse 200 "OK" "http://mock-server:8001/api/uccx/stats"
                 (Ok payload_ab))); reflexivity.
  - destruct (collect_all_metrics default_config env_ok initial_world)
      as [[o|e] w'] eqn:H; [|discriminate].
    cbn [snd]. rewrite (Ho _ _ o w' eq_refl eq_refl eq_refl eq_refl). reflexivity.
Defined.

(** C9 as stated fails: after a successful cycle at 12:00:00, a cycle at
    12:01:00.000250 in which UCCX times out ends with an error, and the
    health endpoint then reports the later time as [last_collection]. *)
Lemma C9_counterexample :
  let w1 := snd (collect_all_metrics default_config env_ok initial_world) in
  exists o w2,
    collect_all_metrics default_config env_uccx_timeout w1 = (Ok o, w2)
    /\ success o = false
    /\ errors o = ["Failed to fetch UCCX metrics: Read timed out. (read timeout=10)"]
    /\ h_last_collection (health_check default_config later w1)
       = Some "2024-01-02T12:00:00"
    /\ h_last_collection (health_check default_config later w2)
       = Some "2024-01-02T12:01:00.000250".
Proof.
  do 2 eexists. split; [vm_compute; reflexivity|]. cbn. repeat split.
Qed.

(** * Further properties of the code *)

(** ** Flattening, for every payload *)

Section Flattening.

Lemma getitem_not_request (v : pyval) (k : string) (e : pyexc) :
  getitem v k = Raise e -> is_RequestException e = false.
Proof.
  destruct v; cbn [getitem]; try (intros [= <-]; reflexivity).
  unfold dict_getitem. destruct (lookup d k); [discriminate|].
  intros [= <-]. reflexivity.
Qed.

Lemma flatten_spec (tag : pyval) (its : list (string * pyval))
    (l : list pydict) :
  flatten tag its = Ok l
  <-> forallb (fun entry => well_formed_entry (snd entry)) its = true
      /\ l = map (record_of tag) its.
Proof.
  revert l. induction its as [|[name info] its IH]; intros l; cbn [flatten forallb map].
  - split; [intros [= <-]; now split | intros [_ ->]; reflexivity].
  - unfold record_of at 1, well_formed_entry at 1, entry_field; cbn [fst snd].
    destruct (getitem info "value") as [v|e]; cbn [rbind].
    2:{ split; [discriminate | intros [H _]; discriminate]. }
    destruct (getitem info "unit") as [un|e]; cbn [rbind].
    2:{ split; [discriminate | intros [H _]; discriminate]. }
    destruct (flatten tag its) as [l'|e]; cbn [rbind andb].
    + destruct (IH l') as [IH1 _]. destruct (IH1 eq_refl) as [Hw ->].
      split.
      * intros [= <-]. now split.
      * intros [_ ->]. reflexivity.
    + split; [discriminate|]. intros [Hw ->].
      destruct (IH (map (record_of tag) its)) as [_ IH2].
      discriminate (IH2 (conj Hw eq_refl)).
Qed.

Lemma flatten_raises (tag : pyval) (its : list (string * pyval))
    (entry : string * pyval) :
  In entry its ->
  well_formed_entry (snd entry) = false ->
  exists e, flatten tag its = Raise e /\ is_RequestException e = false.
Proof.
  induction its as [|[name info] its IH]; [contradiction|].
  intros Hin Hbad. cbn [flatten].
  destruct (getitem info "value") as [v|e] eqn:Ev; cbn [rbind];
    [| exists e; split; [reflexivity | exact (getitem_not_request _ _ _ Ev)]].
  destruct (getitem info "unit") as [un|e] eqn:Eu; cbn [rbind];
    [| exists e; split; [reflexivity | exact (getitem_not_request _ _ _ Eu)]].
  destruct Hin as [<- | Hin].
  - unfold well_formed_entry in Hbad; cbn [snd] in Hbad.
    rewrite Ev, Eu in Hbad. discriminate.
  - destruct (IH Hin Hbad) as (e & -> & He). exists e. now split.
Qed.

(** X1: the loop of a fetch succeeds exactly when [value] and [unit] can
    be read from every entry of the mapping, and then it returns one
    record per entry, in the order of the mapping, each with the tag, the
    entry's key and the two fields; whatever else an entry holds is
    ignored. *)
Theorem flatten_characterised (tag : pyval) (its : list (string * pyval))
    (l : list pydict) :
  flatten tag its = Ok l
  <-> forallb (fun entry => well_formed_entry (snd entry)) its = true
      /\ l = map (record_of tag) its.
Proof. apply flatten_spec. Qed.

(** X2: a malformed entry anywhere in the mapping makes the loop raise,
    whatever the entries before and after it are, and what it raises is
    not a [requests.RequestException]. *)
Theorem flatten_malformed_entry (tag : pyval) (its : list (string * pyval))
    (entry : string * pyval) :
  In entry its ->
  well_formed_entry (snd entry) = false ->
  exists e, flatten tag its = Raise e /\ is_RequestException e = false.
Proof. apply flatten_raises. Qed.

Lemma raise_for_status_ok (r : Response) :
  ~ (400 <= Http.status_code r < 600) -> raise_for_status r = Ok tt.
Proof.
  intros H. unfold raise_for_status.
  destruct ((400 <=? Http.status_code r) && (Http.status_code r <? 500)) eqn:E4.
  { apply andb_true_iff in E4. rewrite Z.leb_le, Z.ltb_lt in E4. lia. }
  destruct ((500 <=? Http.status_code r) && (Http.status_code r <? 600)) eqn:E5.
  { apply andb_true_iff in E5. rewrite Z.leb_le, Z.ltb_lt in E5. lia. }
  reflexivity.
Qed.

(** What a fetch returns once the answer is a JSON object with a mapping
    under [metrics]. *)
Lemma fetch_of_mapping (s : source) (cfg : Config) (env : Env) (r : Response)
    (d its : list (string * pyval)) :
  requests_get env (endpoint s cfg) (REQUEST_TIMEOUT cfg) = Ok r ->
  ~ (400 <= Http.status_code r < 600) ->
  json r = Ok (PyDict d) ->
  lookup d "metrics" = Some (PyDict its) ->
  fetch s cfg env =
  flatten (match lookup d "server_type" with
           | Some tag => tag
           | None => default_tag s
           end) its.
Proof.
  intros Hr Hs Hj Hm. rewrite fetch_unfold, Hr. cbn [rbind].
  rewrite (raise_for_status_ok _ Hs). cbn [rbind]. rewrite Hj. cbn [rbind get].
  rewrite Hm. cbn [rbind items]. destruct s; reflexivity.
Qed.

(** X3: for an answer with a status outside 400..599 whose body is an
    object with well-formed entries under [metrics], the fetch returns
    the records of the entries in order.  Their tag is the answer's
    [server_type], of whatever type it is, and the source's own name
    (["uccx"], ["cucm"]) when the answer has none. *)
Theorem fetch_flattening_law (s : source) (cfg : Config) (env : Env)
    (r : Response) (d its : list (string * pyval)) :
  requests_get env (endpoint s cfg) (REQUEST_TIMEOUT cfg) = Ok r ->
  ~ (400 <= Http.status_code r < 600) ->
  json r = Ok (PyDict d) ->
  lookup d "metrics" = Some (PyDict its) ->
  forallb (fun entry => well_formed_entry (snd entry)) its = true ->
  fetch s cfg env =
  Ok (map (record_of (match lookup d "server_type" with
                      | Some tag => tag
                      | None => default_tag s
                      end)) its).
Proof.
  intros Hr Hs Hj Hm Hw. rewrite (fetch_of_mapping s cfg env r d its Hr Hs Hj Hm).
  apply flatten_spec. now split.
Qed.

(** X4: one malformed entry in the answer of a source aborts the whole
    cycle: [collect_all_metrics] raises (the first source's failure at
    once, the second's once the first fetch is over), returns no outcome,
    and leaves the process state as it was; nothing of the other source
    is saved. *)
Theorem malformed_entry_aborts_cycle (s : source) (cfg : Config) (env : Env)
    (w : World) (r : Response) (d its : list (string * pyval))
    (entry : string * pyval) :
  requests_get env (endpoint s cfg) (REQUEST_TIMEOUT cfg) = Ok r ->
  ~ (400 <= Http.status_code r < 600) ->
  json r = Ok (PyDict d) ->
  lookup d "metrics" = Some (PyDict its) ->
  In entry its ->
  well_formed_entry (snd entry) = false ->
  (s = CUCM -> captured (fetch_uccx_metrics cfg env)) ->
  exists e,
    collect_all_metrics cfg env w = (Raise e, w)
    /\ is_RequestException e = false.
Proof.
  intros Hr Hs Hj Hm Hin Hbad Hfirst.
  pose proof (fetch_of_mapping s cfg env r d its Hr Hs Hj Hm) as Hf.
  destruct (flatten_raises
              (match lookup d "server_type" with
               | Some tag => tag
               | None => default_tag s
               end) its entry Hin Hbad) as (e & He & Hne).
  rewrite He in Hf. exists e. split; [|exact Hne].
  destruct s; cbn [fetch] in Hf.
  - now apply collect_uccx_propagates.
  - apply collect_cucm_propagates; auto.
Qed.

End Flattening.

(** X2 at a mapping whose second entry is a list. *)
Lemma flatten_malformed_entry_witness :
  exists e,
    flatten (PyStr "uccx")
      [ ("a", PyDict [("value", PyInt 1); ("unit", PyStr "count")]);
        ("b", PyList []);
        ("c", PyDict [("value", PyInt 3); ("unit", PyStr "count")]) ]
    = Raise e
    /\ is_RequestException e = false.
Proof.
  apply (flatten_malformed_entry (PyStr "uccx") _ ("b", PyList [])).
  - right. left. reflexivity.
  - reflexivity.
Defined.

(** X3 at [env_mock], whose UCCX entries carry a [description] too. *)
Lemma fetch_flattening_law_witness :
  exists l, fetch UCCX default_config env_mock = Ok l /\ List.length l = 5%nat.
Proof.
  eexists. split.
  - eapply (fetch_flattening_law UCCX default_config env_mock
              (mkResponse 200 "OK" "http://mock-server:8001/api/uccx/stats"
                 (Ok (get_uccx_stats sample_uccx_draws noon)))).
    + reflexivity.
    + cbn. lia.
    + reflexivity.
    + reflexivity.
    + reflexivity.
  - reflexivity.
Defined.

(** X4 at [env_cucm_no_value]. *)
Lemma malformed_entry_aborts_cycle_witness :
  exists e,
    collect_all_metrics default_config env_cucm_no_value initial_world
    = (Raise e, initial_world)
    /\ is_RequestException e = false.
Proof.
  eapply (malformed_entry_aborts_cycle CUCM default_config env_cucm_no_value
            initial_world
            (mkResponse 200 "OK" "http://mock-server:8001/api/cucm/system/stats"
               (Ok payload_no_value))
            _ _ ("cpu_usage_percent", PyDict [("unit", PyStr "percent")])).
  - reflexivity.
  - cbn. lia.
  - reflexivity.
  - reflexivity.
  - left. reflexivity.
  - reflexivity.
  - intros _ e H. discriminate.
Defined.

(** ** The store write, for every batch *)

Section StoreWrite.

Variable env : Env.

Lemma build_rows_length (metrics : list pydict) (rs : list TelephonyMetric) :
  build_rows metrics = (rs, None) -> List.length rs = List.length metrics.
Proof.
  revert rs. induction metrics as [|m rest IH]; intros rs; cbn [build_rows].
  - intros [= <-]. reflexivity.
  - destruct (rbind (dict_getitem m "server_type") _) as [r|e]; [|discriminate].
    destruct (build_rows rest) as [rs' oe]. intros [= <- ->].
    cbn [List.length]. now rewrite (IH rs' eq_refl).
Qed.

Lemma build_rows_missing_key (metrics : list pydict) (m : pydict) :
  In m metrics ->
  has_keys m = false ->
  exists rs e, build_rows metrics = (rs, Some e) /\ exc_type e = KeyError.
Proof.
  induction metrics as [|m0 rest IH]; [contradiction|].
  intros Hin Hbad. cbn [build_rows]. unfold dict_getitem.
  destruct (lookup m0 "server_type") as [st|] eqn:E1; cbn [rbind];
    [| now do 2 eexists].
  destruct (lookup m0 "metric_name") as [mn|] eqn:E2; cbn [rbind];
    [| now do 2 eexists].
  destruct (lookup m0 "metric_value") as [mv|] eqn:E3; cbn [rbind];
    [| now do 2 eexists].
  destruct (lookup m0 "unit") as [un|] eqn:E4; cbn [rbind];
    [| now do 2 eexists].
  destruct Hin as [<- | Hin].
  - unfold has_keys in Hbad. rewrite E1, E2, E3, E4 in Hbad. discriminate.
  - destruct (IH Hin Hbad) as (rs & e & -> & He). now do 2 eexists.
Qed.

(** X5: whenever [save_metrics_to_database] returns, the number it
    returns is the number of records it was given and the number of rows
    it appended to the table; the rows that were there are untouched. *)
Theorem save_count_is_rows_added (metrics : list pydict) (w w' : World) (n : Z) :
  save_metrics_to_database env metrics w = (Ok n, w') ->
  exists rs,
    rows w' = (rows w ++ rs)%list
    /\ len rs = n
    /\ n = len metrics.
Proof.
  rewrite save_metrics_to_database_eq.
  destruct (build_rows metrics) as [rs [e|]] eqn:Hb; [discriminate|].
  destruct (commit_error env rs); [discriminate|].
  intros [= <- <-]. exists rs. cbn [rows]. repeat split.
  unfold len. now rewrite (build_rows_length _ _ Hb).
Qed.

(** X6: a record without one of the four keys, anywhere in the batch,
    makes the call raise [KeyError]; no row of the batch reaches the
    table, not even those of the records before it, and the session is
    closed with nothing pending. *)
Theorem save_missing_key_is_atomic (metrics : list pydict) (m : pydict) (w : World) :
  In m metrics ->
  has_keys m = false ->
  exists e w',
    save_metrics_to_database env metrics w = (Raise e, w')
    /\ exc_type e = KeyError
    /\ rows w' = rows w
    /\ sessions w' = (sessions w ++ [mkSession [] true])%list.
Proof.
  intros Hin Hbad.
  destruct (build_rows_missing_key metrics m Hin Hbad) as (rs & e & Hb & He).
  rewrite (save_loop_raises env metrics w rs e Hb).
  do 2 eexists. repeat split. exact He.
Qed.

(** X7: whatever the batch and however the call ends, the table only
    grows at its end, exactly one session object is created, the
    sessions that existed are untouched, and the two module globals are
    not written. *)
Theorem save_is_append_only (metrics : list pydict) (w : World) :
  let w' := snd (save_metrics_to_database env metrics w) in
  (exists rs, rows w' = (rows w ++ rs)%list)
  /\ (exists s, sessions w' = (sessions w ++ [s])%list)
  /\ last_collection_time w' = last_collection_time w
  /\ metrics_collected_count w' = metrics_collected_count w.
Proof.
  rewrite save_metrics_to_database_eq.
  destruct (build_rows metrics) as [rs [e|]].
  - cbn. repeat split; [exists [] | eexists]; [now rewrite app_nil_r | reflexivity].
  - destruct (commit_error env rs); cbn; repeat split;
      try (eexists; reflexivity). exists []. now rewrite app_nil_r.
Qed.

End StoreWrite.

(** X5 at three records and a database that accepts. *)
Lemma save_count_is_rows_added_witness :
  exists rs,
    rows (snd (save_metrics_to_database env_ok
                 (batch_of default_config env_ok) initial_world))
    = (rows initial_world ++ rs)%list
    /\ len rs = 3
    /\ 3 = len (batch_of default_config env_ok).
Proof.
  apply (save_count_is_rows_added env_ok (batch_of default_config env_ok)
           initial_world _ 3).
  vm_compute. reflexivity.
Defined.

(** X6 at a batch whose second record has no [unit]. *)
Lemma save_missing_key_is_atomic_witness :
  exists e w',
    save_metrics_to_database env_ok
      [ flat_record (PyStr "uccx") "a" (PyInt 1) (PyStr "count");
        [("server_type", PyStr "uccx"); ("metric_name", PyStr "b");
         ("metric_value", PyInt 2)] ]
      initial_world
    = (Raise e, w')
    /\ exc_type e = KeyError
    /\ rows w' = []
    /\ sessions w' = [mkSession [] true].
Proof.
  apply (save_missing_key_is_atomic env_ok _
           [("server_type", PyStr "uccx"); ("metric_name", PyStr "b");
            ("metric_value", PyInt 2)] initial_world).
  - right. left. reflexivity.
  - reflexivity.
Defined.

(** ** One cycle and the database *)

Section Cycle.

Variables (cfg : Config) (env : Env).

(** What a returning cycle does to the table and to the sessions. *)
Lemma collect_footprint (w : World) (o : Outcome) (w' : World) :
  collect_all_metrics cfg env w = (Ok o, w') ->
  match batch_of cfg env with
  | [] =>
      rows w' = rows w /\ sessions w' = sessions w /\ total_saved o = 0
  | _ :: _ =>
      match commit_error env (map to_row (batch_of cfg env)) with
      | None =>
          rows w' = (rows w ++ map to_row (batch_of cfg env))%list
          /\ sessions w' = (sessions w ++ [mkSession [] true])%list
          /\ total_saved o = len (batch_of cfg env)
      | Some _ =>
          rows w' = rows w
          /\ sessions w' =
             (sessions w ++ [mkSession [] false])%list
          /\ total_saved o = 0
      end
  end.
Proof.
  intros H. destruct (returns_captured _ _ _ _ _ H) as [Hu Hc].
  rewrite (collect_captured cfg env w Hu Hc) in H.
  pose proof (batch_flat cfg env) as Hf.
  destruct (batch_of cfg env) as [|m b].
  - injection H as <- <-. now cbn.
  - rewrite save_metrics_to_database_eq, (build_rows_flat _ Hf) in H.
    destruct (commit_error env (map to_row (m :: b))); injection H as <- <-; now cbn.
Qed.

Lemma collect_errors (w : World) (o : Outcome) (w' : World) :
  collect_all_metrics cfg env w = (Ok o, w') ->
  errors o = (fetch_errors cfg env ++ store_errors env w (batch_of cfg env))%list
  /\ success o = (len (errors o) =? 0)
  /\ uccx_metrics_count o = len (records (fetch_uccx_metrics cfg env))
  /\ cucm_metrics_count o = len (records (fetch_cucm_metrics cfg env)).
Proof.
  intros H. destruct (returns_captured _ _ _ _ _ H) as [Hu Hc].
  rewrite (collect_captured cfg env w Hu Hc) in H. unfold store_errors.
  destruct (batch_of cfg env) as [|m b].
  - injection H as <- <-. cbn. now rewrite app_nil_r.
  - destruct (save_metrics_to_database env (m :: b) w) as [[n|e] w1];
      injection H as <- <-; cbn; [now rewrite app_nil_r | tauto].
Qed.

(** X8: when both fetches raise a [requests.RequestException], the cycle
    still returns: both counts and [total_saved] are 0, [errors] holds the
    UCCX entry then the CUCM entry, [success] is false, and the database
    is not touched at all (no row, no session); only the time of the last
    collection is written. *)
Theorem total_outage (w : World) (eu ec : pyexc) :
  fetch_uccx_metrics cfg env = Raise eu ->
  fetch_cucm_metrics cfg env = Raise ec ->
  is_RequestException eu = true ->
  is_RequestException ec = true ->
  collect_all_metrics cfg env w =
  (Ok {| success := false;
         uccx_metrics_count := 0;
         cucm_metrics_count := 0;
         total_saved := 0;
         errors := [fetch_error_msg UCCX eu; fetch_error_msg CUCM ec];
         timestamp := isoformat (utcnow env) |},
   set_last_collection_time (utcnow env) w).
Proof.
  intros Hu Hc Ru Rc.
  rewrite collect_captured by (rewrite ?Hu, ?Hc; now apply captured_Raise).
  unfold batch_of, fetch_errors, report. rewrite Hu, Hc. reflexivity.
Qed.

(** X9: a cycle that fetched no record (both sources failed, or answered
    with empty mappings) never opens a session: table, sessions and
    lifetime counter are as before and [total_saved] is 0. *)
Theorem empty_batch_skips_the_store (w : World) (o : Outcome) (w' : World) :
  collect_all_metrics cfg env w = (Ok o, w') ->
  uccx_metrics_count o + cucm_metrics_count o = 0 ->
  rows w' = rows w
  /\ sessions w' = sessions w
  /\ metrics_collected_count w' = metrics_collected_count w
  /\ total_saved o = 0.
Proof.
  intros H Hz.
  destruct (collect_errors _ _ _ H) as (_ & _ & Hcu & Hcc).
  destruct (collect_bookkeeping _ _ _ _ _ H) as (_ & _ & Hcount & _).
  pose proof (collect_footprint _ _ _ H) as Hfp.
  assert (Hb : batch_of cfg env = []).
  { unfold batch_of. rewrite Hcu, Hcc in Hz. unfold len in Hz.
    destruct (records (fetch_uccx_metrics cfg env));
      [|cbn [List.length] in Hz; lia].
    destruct (records (fetch_cucm_metrics cfg env));
      [reflexivity | cbn [List.length] in Hz; lia]. }
  rewrite Hb in Hfp. destruct Hfp as (Hr & Hs & Ht).
  repeat split; trivial. lia.
Qed.

(** X10: every outcome the orchestrator returns is consistent:
    [success] holds exactly when [errors] is empty; [total_saved] is
    either 0 or the sum of the two counts (a batch is never saved in
    part); a successful outcome saved everything it fetched; and [errors]
    has at most three entries. *)
Theorem outcome_is_consistent (w : World) (o : Outcome) (w' : World) :
  collect_all_metrics cfg env w = (Ok o, w') ->
  (success o = true <-> errors o = [])
  /\ 0 <= uccx_metrics_count o
  /\ 0 <= cucm_metrics_count o
  /\ (total_saved o = 0
      \/ total_saved o = uccx_metrics_count o + cucm_metrics_count o)
  /\ (success o = true ->
      total_saved o = uccx_metrics_count o + cucm_metrics_count o)
  /\ (List.length (errors o) <= 3)%nat.
Proof.
  intros H.
  destruct (collect_errors _ _ _ H) as (He & Hs & Hcu & Hcc).
  pose proof (collect_total_saved _ _ _ _ _ H) as Ht.
  assert (Hsum : len (batch_of cfg env)
                 = uccx_metrics_count o + cucm_metrics_count o).
  { unfold batch_of. now rewrite len_app, Hcu, Hcc. }
  assert (Hsave : forall n, fst (save_metrics_to_database env (batch_of cfg env) w) = Ok n ->
                            n = len (batch_of cfg env))
    by (intros n; apply save_Ok_count).
  assert (Hiff : success o = true <-> errors o = []).
  { rewrite Hs. unfold len. destruct (errors o); cbn; split; congruence. }
  split; [exact Hiff|].
  split; [rewrite Hcu; apply len_nonneg|].
  split; [rewrite Hcc; apply len_nonneg|].
  split; [|split].
  - destruct (batch_of cfg env) as [|m b]; [now left|].
    destruct (fst (save_metrics_to_database env (m :: b) w)) as [n|e];
      [right | now left].
    rewrite Ht, <- Hsum. now apply Hsave.
  - intros Hok. apply Hiff in Hok. rewrite He in Hok.
    apply app_eq_nil in Hok. destruct Hok as [_ Hst]. unfold store_errors in Hst.
    destruct (batch_of cfg env) as [|m b]; [cbn in Hsum; lia|].
    destruct (fst (save_metrics_to_database env (m :: b) w)) as [n|e];
      [|discriminate].
    rewrite Ht, <- Hsum. now apply Hsave.
  - rewrite He, length_app. unfold fetch_errors, store_errors. rewrite length_app.
    destruct (fetch_uccx_metrics cfg env), (fetch_cucm_metrics cfg env);
      cbn [error_of List.length];
      (destruct (batch_of cfg env);
       [cbn; lia
       | destruct (fst (save_metrics_to_database env _ w)); cbn; lia]).
Qed.

(** X11: a cycle leaves one more session open than it found exactly when
    it attempted a store write and the commit raised; in every other
    case the sessions it leaves open are those that were open before. *)
Theorem cycle_open_sessions (w : World) (o : Outcome) (w' : World) :
  collect_all_metrics cfg env w = (Ok o, w') ->
  open_sessions w' =
  open_sessions w +
  match batch_of cfg env with
  | [] => 0
  | _ :: _ =>
      match commit_error env (map to_row (batch_of cfg env)) with
      | None => 0
      | Some _ => 1
      end
  end.
Proof.
  intros H. pose proof (collect_footprint _ _ _ H) as Hfp.
  unfold open_sessions, len.
  destruct (batch_of cfg env) as [|m b].
  - destruct Hfp as (_ & -> & _). lia.
  - destruct (commit_error env (map to_row (m :: b)));
      destruct Hfp as (_ & -> & _); rewrite filter_app, length_app; cbn; lia.
Qed.

End Cycle.

(** X8 at an environment in which both requests time out. *)
Lemma total_outage_witness :
  exists o w',
    collect_all_metrics default_config
      (mkEnv timed_out accept_all noon) initial_world = (Ok o, w')
    /\ success o = false
    /\ List.length (errors o) = 2%nat
    /\ sessions w' = [].
Proof.
  do 2 eexists. split.
  - apply (total_outage default_config (mkEnv timed_out accept_all noon)
             initial_world
             (mkExc RequestException "Read timed out. (read timeout=10)")
             (mkExc RequestException "Read timed out. (read timeout=10)"));
      reflexivity.
  - repeat split.
Defined.

(** X9 at the same environment. *)
Lemma empty_batch_skips_the_store_witness :
  sessions (snd (collect_all_metrics default_config
                   (mkEnv timed_out accept_all noon) initial_world)) = [].
Proof.
  destruct (collect_all_metrics default_config
              (mkEnv timed_out accept_all noon) initial_world)
    as [[o|e] w'] eqn:H; [|discriminate].
  destruct (empty_batch_skips_the_store default_config _ _ _ _ H)
    as (_ & Hs & _).
  - injection H as <- _. reflexivity.
  - exact Hs.
Defined.

(** X10 at [env_uccx_timeout]. *)
Lemma outcome_is_consistent_witness :
  exists o w',
    collect_all_metrics default_config env_uccx_timeout initial_world = (Ok o, w')
    /\ (total_saved o = 0
        \/ total_saved o = uccx_metrics_count o + cucm_metrics_count o)
    /\ (List.length (errors o) <= 3)%nat.
Proof.
  destruct (collect_all_metrics default_config env_uccx_timeout initial_world)
    as [[o|e] w'] eqn:H; [|discriminate].
  exists o, w'. split; [reflexivity|].
  destruct (outcome_is_consistent default_config env_uccx_timeout _ _ _ H)
    as (_ & _ & _ & Ht & _ & Hl).
  now split.
Defined.

(** X11 at [env_db_down]: the cycle leaves its session open. *)
Lemma cycle_open_sessions_witness :
  open_sessions (snd (collect_all_metrics default_config env_db_down initial_world))
  = 1.
Proof.
  destruct (collect_all_metrics default_config env_db_down initial_world)
    as [[o|e] w'] eqn:H; [|discriminate].
  cbn [snd].
  rewrite (cycle_open_sessions default_config env_db_down initial_world o w' H).
  reflexivity.
Defined.

(** ** Sequences of cycles *)

Section Sequences.

Variable cfg : Config.

(** One cycle, returning or raising: what it adds to the table and to
    the sessions, and by how much the counter moves. *)
Lemma cycle_step (env : Env) (w : World) :
  let w' := snd (collect_all_metrics cfg env w) in
  exists rs ss,
    rows w' = (rows w ++ rs)%list
    /\ sessions w' = (sessions w ++ ss)%list
    /\ (List.length ss <= 1)%nat
    /\ metrics_collected_count w' = metrics_collected_count w + len rs.
Proof.
  destruct (collect_all_metrics cfg env w) as [[o|e] w'] eqn:H; cbn [snd].
  - pose proof (collect_footprint _ _ _ _ _ H) as Hfp.
    destruct (collect_bookkeeping _ _ _ _ _ H) as (_ & _ & Hc & _).
    destruct (batch_of cfg env) as [|m b].
    + destruct Hfp as (Hr & Hs & Ht). exists [], [].
      rewrite !app_nil_r, Hc, Ht. cbn. repeat split; trivial; lia.
    + destruct (commit_error env (map to_row (m :: b)));
        destruct Hfp as (Hr & Hs & Ht).
      * exists [], [mkSession [] false].
        rewrite app_nil_r, Hc, Ht. cbn. repeat split; trivial; lia.
      * exists (map to_row (m :: b)), [mkSession [] true].
        rewrite Hc, Ht. unfold len. rewrite length_map.
        cbn [List.length]. repeat split; trivial; lia.
  - rewrite (collect_raises_unchanged _ _ _ _ _ H). exists [], [].
    rewrite !app_nil_r. cbn. repeat split; trivial; lia.
Qed.

Lemma cycles_steps (envs : list Env) :
  forall w,
    exists rs ss,
      rows (run_cycles cfg envs w) = (rows w ++ rs)%list
      /\ sessions (run_cycles cfg envs w) = (sessions w ++ ss)%list
      /\ (List.length ss <= List.length envs)%nat
      /\ metrics_collected_count (run_cycles cfg envs w)
         = metrics_collected_count w + len rs.
Proof.
  induction envs as [|env envs IH]; intros w; cbn [run_cycles].
  - exists [], []. rewrite !app_nil_r. cbn. repeat split; trivial; lia.
  - destruct (cycle_step env w) as (rs1 & ss1 & Hr1 & Hs1 & Hl1 & Hc1).
    destruct (IH (snd (collect_all_metrics cfg env w)))
      as (rs2 & ss2 & Hr2 & Hs2 & Hl2 & Hc2).
    exists (rs1 ++ rs2)%list, (ss1 ++ ss2)%list.
    rewrite Hr2, Hs2, Hc2, Hr1, Hs1, Hc1, <- !app_assoc, len_app.
    repeat split; trivial; [|lia].
    rewrite length_app. cbn [List.length]. lia.
Qed.

(** X12: over any sequence of cycles, returning or raising, the table is
    append-only: the rows and the session objects present at the start
    are still there, in place, at the end, and at most one session is
    created per cycle. *)
Theorem cycles_are_append_only (envs : list Env) (w : World) :
  exists rs ss,
    rows (run_cycles cfg envs w) = (rows w ++ rs)%list
    /\ sessions (run_cycles cfg envs w) = (sessions w ++ ss)%list
    /\ (List.length ss <= List.length envs)%nat.
Proof.
  destruct (cycles_steps envs w) as (rs & ss & Hr & Hs & Hl & _).
  now exists rs, ss.
Qed.


End Sequences.

Example same_cycle_twice :
  let w := run_cycles default_config [env_ok; env_ok] initial_world in
  len (rows w) = 6 /\ metrics_collected_count w = 6.
Proof. vm_compute. split; reflexivity. Qed.

(** ** The manual trigger *)

Section Trigger.

Variables (cfg : Config) (env : Env).

(** X14: [GET /api/collect] returns the outcome only when its [errors]
    is empty.  Otherwise it raises the 502, whose detail carries the
    outcome's errors and counts; the cycle itself is not undone: the
    state is the one [collect_all_metrics] left, with the lifetime
    counter advanced by the reported [total_saved].  An exception that
    leaves [collect_all_metrics] leaves the route too, the state
    unchanged. *)
Theorem trigger_collection_spec (w : World) :
  match trigger_collection cfg env w with
  | (Returned o, w') =>
      collect_all_metrics cfg env w = (Ok o, w') /\ errors o = []
  | (HTTPException status d, w') =>
      status = 502
      /\ exists o,
           collect_all_metrics cfg env w = (Ok o, w')
           /\ errors o <> []
           /\ detail_errors d = errors o
           /\ pr_uccx_metrics_count (partial_results d) = uccx_metrics_count o
           /\ pr_cucm_metrics_count (partial_results d) = cucm_metrics_count o
           /\ pr_total_saved (partial_results d) = total_saved o
           /\ metrics_collected_count w'
              = metrics_collected_count w + total_saved o
  | (Raised e, w') =>
      collect_all_metrics cfg env w = (Raise e, w) /\ w' = w
  end.
Proof.
  unfold trigger_collection.
  destruct (collect_all_metrics cfg env w) as [[o|e] w'] eqn:H.
  - destruct (collect_errors _ _ _ _ _ H) as (_ & Hs & _).
    destruct (collect_bookkeeping _ _ _ _ _ H) as (_ & _ & Hc & _).
    destruct (success o) eqn:Es; cbn [negb].
    + split; trivial. symmetry in Hs. apply Z.eqb_eq in Hs.
      unfold len in Hs. destruct (errors o); [trivial | cbn [List.length] in Hs; lia].
    + split; trivial. exists o. repeat split; trivial.
      intros Hnil. rewrite Hnil in Hs. discriminate.
  - pose proof (collect_raises_unchanged _ _ _ _ _ H) as ->. now split.
Qed.

End Trigger.

Example trigger_502_keeps_the_rows :
  match trigger_collection default_config env_uccx_timeout initial_world with
  | (HTTPException status d, w') =>
      status = 502 /\ pr_total_saved (partial_results d) = 1
      /\ List.length (rows w') = 1%nat
  | _ => False
  end.
Proof. vm_compute. repeat split. Qed.

(** ** The gateway in front of the mock server *)

Section Mock.

Variables (cfg : Config) (env : Env).

Lemma fetch_200 (s : source) (r : Response) (d its : list (string * pyval)) :
  requests_get env (endpoint s cfg) (REQUEST_TIMEOUT cfg) = Ok r ->
  Http.status_code r = 200 ->
  json r = Ok (PyDict d) ->
  lookup d "metrics" = Some (PyDict its) ->
  fetch s cfg env =
  flatten (match lookup d "server_type" with
           | Some tag => tag
           | None => default_tag s
           end) its.
Proof.
  intros Hr Hs. apply fetch_of_mapping; trivial. rewrite Hs. lia.
Qed.

Lemma mock_uccx_records (r : Response) (d : UccxDraws) (now : datetime) :
  requests_get env (endpoint UCCX cfg) (REQUEST_TIMEOUT cfg) = Ok r ->
  Http.status_code r = 200 ->
  json r = Ok (get_uccx_stats d now) ->
  fetch_uccx_metrics cfg env =
  Ok [ flat_record (PyStr "uccx") "active_agents"
         (PyInt (Z.max 10 (Z.min 100 (agents_raw d)))) (PyStr "count");
       flat_record (PyStr "uccx") "calls_in_queue"
         (PyInt (Z.max 0 (Z.min 50 (queue_raw d)))) (PyStr "count");
       flat_record (PyStr "uccx") "avg_handle_time"
         (PyFloat (avg_handle_time d)) (PyStr "seconds");
       flat_record (PyStr "uccx") "service_level_percent"
         (service_level d) (PyStr "percent");
       flat_record (PyStr "uccx") "abandoned_calls"
         (PyInt (abandoned_calls d)) (PyStr "count") ].
Proof.
  intros Hr Hs Hj.
  change (fetch_uccx_metrics cfg env) with (fetch UCCX cfg env).
  now rewrite (fetch_200 UCCX r _ _ Hr Hs Hj eq_refl).
Qed.

Lemma mock_cucm_records (r : Response) (d : CucmDraws) (now : datetime) :
  requests_get env (endpoint CUCM cfg) (REQUEST_TIMEOUT cfg) = Ok r ->
  Http.status_code r = 200 ->
  json r = Ok (get_cucm_stats d now) ->
  fetch_cucm_metrics cfg env =
  Ok [ flat_record (PyStr "cucm") "cpu_usage_percent"
         (cpu_usage d) (PyStr "percent");
       flat_record (PyStr "cucm") "memory_usage_percent"
         (memory_usage d) (PyStr "percent");
       flat_record (PyStr "cucm") "active_calls"
         (PyInt (Z.max 50 (calls_raw d))) (PyStr "count");
       flat_record (PyStr "cucm") "registered_phones"
         (PyInt (registered_phones d)) (PyStr "count");
       flat_record (PyStr "cucm") "failed_calls"
         (PyInt (failed_calls d)) (PyStr "count");
       flat_record (PyStr "cucm") "total_call_volume"
         (PyInt (total_call_volume d)) (PyStr "count") ].
Proof.
  intros Hr Hs Hj.
  change (fetch_cucm_metrics cfg env) with (fetch CUCM cfg env).
  now rewrite (fetch_200 CUCM r _ _ Hr Hs Hj eq_refl).
Qed.

(** X16: whatever the mock server draws, the gateway's fetch of its UCCX
    answer succeeds with exactly five records, tagged ["uccx"], named in
    the order of the answer; the [description] fields are dropped, and
    the two clamped metrics are integers within their bounds
    ([active_agents] in 10..100, [calls_in_queue] in 0..50). *)
Theorem mock_uccx_is_fetched (r : Response) (d : UccxDraws) (now : datetime) :
  requests_get env (endpoint UCCX cfg) (REQUEST_TIMEOUT cfg) = Ok r ->
  Http.status_code r = 200 ->
  json r = Ok (get_uccx_stats d now) ->
  exists l agents queue,
    fetch_uccx_metrics cfg env = Ok l
    /\ map (fun m => lookup m "metric_name") l
       = map (fun n => Some (PyStr n))
           [ "active_agents"; "calls_in_queue"; "avg_handle_time";
             "service_level_percent"; "abandoned_calls" ]
    /\ Forall (fun m => lookup m "server_type" = Some (PyStr "uccx")
                        /\ List.length m = 4%nat) l
    /\ map (fun m => lookup m "metric_value") l
       = [ Some (PyInt agents); Some (PyInt queue);
           Some (PyFloat (avg_handle_time d)); Some (service_level d);
           Some (PyInt (abandoned_calls d)) ]
    /\ 10 <= agents <= 100
    /\ 0 <= queue <= 50.
Proof.
  intros Hr Hs Hj. do 3 eexists.
  split; [exact (mock_uccx_records r d now Hr Hs Hj)|].
  split; [reflexivity|].
  split; [repeat constructor|].
  split; [reflexivity|].
  split; lia.
Qed.

(** X17: likewise the fetch of the mock's CUCM answer succeeds with
    exactly six records tagged ["cucm"], and the [active_calls] it
    reports is an integer of at least 50. *)
Theorem mock_cucm_is_fetched (r : Response) (d : CucmDraws) (now : datetime) :
  requests_get env (endpoint CUCM cfg) (REQUEST_TIMEOUT cfg) = Ok r ->
  Http.status_code r = 200 ->
  json r = Ok (get_cucm_stats d now) ->
  exists l calls,
    fetch_cucm_metrics cfg env = Ok l
    /\ map (fun m => lookup m "metric_name") l
       = map (fun n => Some (PyStr n))
           [ "cpu_usage_percent"; "memory_usage_percent"; "active_calls";
             "registered_phones"; "failed_calls"; "total_call_volume" ]
    /\ Forall (fun m => lookup m "server_type" = Some (PyStr "cucm")
                        /\ List.length m = 4%nat) l
    /\ map (fun m => lookup m "metric_value") l
       = [ Some (cpu_usage d); Some (memory_usage d); Some (PyInt calls);
           Some (PyInt (registered_phones d)); Some (PyInt (failed_calls d));
           Some (PyInt (total_call_volume d)) ]
    /\ 50 <= calls.
Proof.
  intros Hr Hs Hj. do 2 eexists.
  split; [exact (mock_cucm_records r d now Hr Hs Hj)|].
  split; [reflexivity|].
  split; [repeat constructor|].
  split; [reflexivity|].
  lia.
Qed.

(** X18: a cycle against the mock server never meets a malformed entry:
    with a database that takes the batch it returns [success = true], no
    error, five UCCX and six CUCM metrics, [total_saved = 11], and the
    table gains eleven rows, the UCCX ones first. *)
Theorem cycle_against_the_mock (w : World) (du : UccxDraws) (dc : CucmDraws)
    (tu tc : datetime) :
  served_by_mock cfg env du dc tu tc ->
  commit_error env (map to_row (batch_of cfg env)) = None ->
  exists o w',
    collect_all_metrics cfg env w = (Ok o, w')
    /\ success o = true
    /\ errors o = []
    /\ uccx_metrics_count o = 5
    /\ cucm_metrics_count o = 6
    /\ total_saved o = 11
    /\ rows w' = (rows w ++ map to_row (batch_of cfg env))%list
    /\ len (rows w') = len (rows w) + 11
    /\ metrics_collected_count w' = metrics_collected_count w + 11.
Proof.
  intros [(ru & Hru & Hsu & Hju) (rc & Hrc & Hsc & Hjc)] Hacc.
  pose proof (mock_uccx_records ru du tu Hru Hsu Hju) as Hu.
  pose proof (mock_cucm_records rc dc tc Hrc Hsc Hjc) as Hc.
  pose proof (batch_flat cfg env) as Hf.
  assert (Hlen : len (batch_of cfg env) = 11)
    by (unfold batch_of; rewrite Hu, Hc; reflexivity).
  assert (Hne : exists m b, batch_of cfg env = m :: b)
    by (unfold batch_of; rewrite Hu, Hc; cbn [records app]; eauto).
  destruct Hne as (m & b & Hb).
  assert (Hrun : collect_all_metrics cfg env w =
                 (Ok (report cfg env 11 []),
                  set_last_collection_time (utcnow env)
                    (add_collected 11
                       (mkWorld (last_collection_time w) (metrics_collected_count w)
                          (rows w ++ map to_row (batch_of cfg env))
                          (sessions w ++ [mkSession [] true]))))%list).
  { rewrite collect_captured by (rewrite ?Hu, ?Hc; apply captured_Ok).
    assert (Hfe : fetch_errors cfg env = [])
      by (unfold fetch_errors; now rewrite Hu, Hc).
    rewrite save_metrics_to_database_eq, (build_rows_flat _ Hf), Hacc, Hfe, Hlen.
    now rewrite Hb. }
  do 2 eexists. split; [exact Hrun|].
  cbn [success errors uccx_metrics_count cucm_metrics_count total_saved report
       rows metrics_collected_count set_last_collection_time add_collected].
  rewrite Hu, Hc. repeat split.
  rewrite len_app. unfold len at 2. rewrite length_map. fold (len (batch_of cfg env)).
  now rewrite Hlen.
Qed.

End Mock.

(** X16 at [env_mock]: raw draws 140 and -3 are clamped to 100 and 0. *)
Lemma mock_uccx_is_fetched_witness :
  exists l agents queue,
    fetch_uccx_metrics default_config env_mock = Ok l
    /\ map (fun m => lookup m "metric_name") l
       = map (fun n => Some (PyStr n))
           [ "active_agents"; "calls_in_queue"; "avg_handle_time";
             "service_level_percent"; "abandoned_calls" ]
    /\ Forall (fun m => lookup m "server_type" = Some (PyStr "uccx")
                        /\ List.length m = 4%nat) l
    /\ map (fun m => lookup m "metric_value") l
       = [ Some (PyInt agents); Some (PyInt queue);
           Some (PyFloat 187.5%float); Some (PyFloat 91.5%float);
           Some (PyInt 2) ]
    /\ 10 <= agents <= 100
    /\ 0 <= queue <= 50.
Proof.
  apply (mock_uccx_is_fetched default_config env_mock
           (mkResponse 200 "OK" "http://mock-server:8001/api/uccx/stats"
              (Ok (get_uccx_stats sample_uccx_draws noon)))
           sample_uccx_draws noon); reflexivity.
Defined.

(** X17 at [env_mock]: a raw draw of 20 calls is raised to 50. *)
Lemma mock_cucm_is_fetched_witness :
  exists l calls,
    fetch_cucm_metrics default_config env_mock = Ok l
    /\ map (fun m => lookup m "metric_name") l
       = map (fun n => Some (PyStr n))
           [ "cpu_usage_percent"; "memory_usage_percent"; "active_calls";
             "registered_phones"; "failed_calls"; "total_call_volume" ]
    /\ Forall (fun m => lookup m "server_type" = Some (PyStr "cucm")
                        /\ List.length m = 4%nat) l
    /\ map (fun m => lookup m "metric_value") l
       = [ Some (PyFloat 31.5%float); Some (PyInt 90); Some (PyInt calls);
           Some (PyInt 812); Some (PyInt 4); Some (PyInt 700) ]
    /\ 50 <= calls.
Proof.
  apply (mock_cucm_is_fetched default_config env_mock
           (mkResponse 200 "OK" "http://mock-server:8001/api/cucm/system/stats"
              (Ok (get_cucm_stats sample_cucm_draws noon)))
           sample_cucm_draws noon); reflexivity.
Defined.

(** X18 at [env_mock]. *)
Lemma cycle_against_the_mock_witness :
  exists o w',
    collect_all_metrics default_config env_mock initial_world = (Ok o, w')
    /\ success o = true
    /\ errors o = []
    /\ uccx_metrics_count o = 5
    /\ cucm_metrics_count o = 6
    /\ total_saved o = 11
    /\ rows w' = (rows initial_world
                    ++ map to_row (batch_of default_config env_mock))%list
    /\ len (rows w') = len (rows initial_world) + 11
    /\ metrics_collected_count w' = metrics_collected_count initial_world + 11.
Proof.
  apply (cycle_against_the_mock default_config env_mock initial_world
           sample_uccx_draws sample_cucm_draws noon noon).
  - split; eexists; (split; [reflexivity|]); split; reflexivity.
  - reflexivity.
Defined.
